(** * Card validator: a shallow embedding of [validator/validators.py],
    [validator/serializers.py] and [validator/views.py].

    Python [str] values are sequences of Unicode code points, so a string is
    a list of code points here; the character classes used by [re]'s [\d],
    by [str.isdigit] and by [int] are the ones of the interpreter's Unicode
    database. *)

From Stdlib Require Import List ZArith NArith Lia Bool String Ascii.
Import ListNotations.

Local Open Scope N_scope.

(** ** Python strings *)

Definition Py_UCS4 : Type := N.
Definition str : Type := list Py_UCS4.

Definition ord (a : ascii) : Py_UCS4 := N_of_ascii a.

(** An ASCII literal as a Python string. *)
Definition py (s : string) : str := map ord (list_ascii_of_string s).

Definition len (s : str) : Z := Z.of_nat (List.length s).

(** ** Exceptions and results *)

Inductive Exception : Type :=
| ValidationError (detail : str)
| ValueError
| IndexError.

Inductive result (A : Type) : Type :=
| Return (a : A)
| Raise (e : Exception).

Arguments Return {A} a.
Arguments Raise {A} e.

Definition bind {A B : Type} (m : result A) (k : A -> result B) : result B :=
  match m with
  | Return a => k a
  | Raise e => Raise e
  end.

Notation "x <- m ;; k" := (bind m (fun x => k))
  (at level 61, m at next level, right associativity).
Notation "m ;;; k" := (bind m (fun _ => k))
  (at level 61, right associativity).

(** ** The interpreter's character database (Unicode 15.0) *)

Module Unicode.

(** First code point of every run of ten consecutive decimal digits
    (general category Nd); the digit value is the offset in the run. *)
Definition decimal_runs : list N :=
  [ 0x0030; 0x0660; 0x06F0; 0x07C0; 0x0966; 0x09E6; 0x0A66; 0x0AE6;
    0x0B66; 0x0BE6; 0x0C66; 0x0CE6; 0x0D66; 0x0DE6; 0x0E50; 0x0ED0;
    0x0F20; 0x1040; 0x1090; 0x17E0; 0x1810; 0x1946; 0x19D0; 0x1A80;
    0x1A90; 0x1B50; 0x1BB0; 0x1C40; 0x1C50; 0xA620; 0xA8D0; 0xA900;
    0xA9D0; 0xA9F0; 0xAA50; 0xABF0; 0xFF10;
    0x104A0; 0x10D30; 0x11066; 0x110F0; 0x11136; 0x111D0; 0x112F0;
    0x11450; 0x114D0; 0x11650; 0x116C0; 0x11730; 0x118E0; 0x11950;
    0x11C50; 0x11D50; 0x11DA0; 0x11F50; 0x16A60; 0x16AC0; 0x16B50;
    0x1D7CE; 0x1D7D8; 0x1D7E2; 0x1D7EC; 0x1D7F6;
    0x1E140; 0x1E2F0; 0x1E4F0; 0x1E950; 0x1FBF0 ].

(** Code points whose numeric type is Digit without being decimal
    (superscripts, subscripts, circled digits, ...), as inclusive ranges. *)
Definition other_digit_ranges : list (N * N) :=
  [ (0x00B2, 0x00B3); (0x00B9, 0x00B9); (0x1369, 0x1371); (0x19DA, 0x19DA);
    (0x2070, 0x2070); (0x2074, 0x2079); (0x2080, 0x2089); (0x2460, 0x2468);
    (0x2474, 0x247C); (0x2488, 0x2490); (0x24EA, 0x24EA); (0x24F5, 0x24FD);
    (0x24FF, 0x24FF); (0x2776, 0x277E); (0x2780, 0x2788); (0x278A, 0x2792);
    (0x10A40, 0x10A43); (0x10E60, 0x10E68); (0x11052, 0x1105A);
    (0x1F100, 0x1F10A) ].

Fixpoint run_digit (runs : list N) (ch : Py_UCS4) : option N :=
  match runs with
  | [] => None
  | first :: rest =>
      if (first <=? ch) && (ch <=? first + 9) then Some (ch - first)
      else run_digit rest ch
  end.

(** [_PyUnicode_ToDecimalDigit]: the decimal value, when there is one. *)
Definition ToDecimalDigit (ch : Py_UCS4) : option N := run_digit decimal_runs ch.

Definition IsDecimalDigit (ch : Py_UCS4) : bool :=
  match ToDecimalDigit ch with
  | Some _ => true
  | None => false
  end.

Definition in_range (ch : Py_UCS4) (r : N * N) : bool :=
  (fst r <=? ch) && (ch <=? snd r).

(** [_PyUnicode_IsDigit]: numeric type Decimal or Digit. *)
Definition IsDigit (ch : Py_UCS4) : bool :=
  IsDecimalDigit ch || existsb (in_range ch) other_digit_ranges.

(** [_PyUnicode_IsWhitespace]: the code points that [str.strip] removes. *)
Definition whitespace : list Py_UCS4 :=
  [ 0x0009; 0x000A; 0x000B; 0x000C; 0x000D; 0x001C; 0x001D; 0x001E; 0x001F;
    0x0020; 0x0085; 0x00A0; 0x1680; 0x2000; 0x2001; 0x2002; 0x2003; 0x2004;
    0x2005; 0x2006; 0x2007; 0x2008; 0x2009; 0x200A; 0x2028; 0x2029; 0x202F;
    0x205F; 0x3000 ].

Definition IsWhitespace (ch : Py_UCS4) : bool := existsb (N.eqb ch) whitespace.

End Unicode.

(** The ten characters "0" .. "9". *)
Definition ascii_digit (ch : Py_UCS4) : bool := (48 <=? ch) && (ch <=? 57).

(** ** Builtins used by the validators *)

(** [re.sub] for a pattern that is one character class: every character of
    the class is replaced by [repl], the others are copied. *)
Fixpoint re_sub_class (class : Py_UCS4 -> bool) (repl value : str) : str :=
  match value with
  | [] => []
  | ch :: rest =>
      if class ch then repl ++ re_sub_class class repl rest
      else ch :: re_sub_class class repl rest
  end.

(** The class [[^\d]] of a [str] pattern. *)
Definition not_digit_class (ch : Py_UCS4) : bool := negb (Unicode.IsDecimalDigit ch).

(** [str.isdigit]: false on the empty string. *)
Definition isdigit (s : str) : bool :=
  match s with
  | [] => false
  | _ => forallb Unicode.IsDigit s
  end.

(** [int] of a one-character string. *)
Definition int (digit : Py_UCS4) : result Z :=
  match Unicode.ToDecimalDigit digit with
  | Some d => Return (Z.of_N d)
  | None => Raise ValueError
  end.

Fixpoint startswith (s prefix : str) : bool :=
  match prefix, s with
  | [], _ => true
  | _ :: _, [] => false
  | p :: prefix', ch :: s' => (ch =? p) && startswith s' prefix'
  end.

(** [str.startswith] with a tuple of prefixes. *)
Definition startswith_any (s : str) (prefixes : list str) : bool :=
  existsb (startswith s) prefixes.

(** The slice [s[start:]]. *)
Definition slice_from (s : str) (start : Z) : str :=
  let start' := if (start <? 0)%Z then Z.max (start + len s) 0
                else Z.min start (len s) in
  skipn (Z.to_nat start') s.

(** [str.lstrip] and [str.strip] without argument. *)
Fixpoint lstrip (s : str) : str :=
  match s with
  | [] => []
  | ch :: rest => if Unicode.IsWhitespace ch then lstrip rest else s
  end.

Definition strip (s : str) : str := rev (lstrip (rev (lstrip s))).

(** The format [{:X}] of a code point: upper-case hexadecimal, no padding. *)
Definition hex_digit (d : N) : Py_UCS4 := if d <? 10 then 48 + d else 55 + d.

Fixpoint format_X_digits (fuel : nat) (n : N) (acc : str) : str :=
  match fuel with
  | O => acc
  | S fuel' =>
      let acc' := hex_digit (n mod 16) :: acc in
      if n / 16 =? 0 then acc' else format_X_digits fuel' (n / 16) acc'
  end.

Definition format_X (n : N) : str := format_X_digits (S (N.to_nat (N.log2 n))) n [].

(** [enumerate]. *)
Fixpoint enumerate_from {A : Type} (start : Z) (l : list A) : list (Z * A) :=
  match l with
  | [] => []
  | x :: rest => (start, x) :: enumerate_from (start + 1) rest
  end.

Definition enumerate {A : Type} (l : list A) : list (Z * A) := enumerate_from 0 l.

(** A [for] loop whose body may raise. *)
Fixpoint for_each {S A : Type} (body : S -> A -> result S) (items : list A) (s : S)
  : result S :=
  match items with
  | [] => Return s
  | x :: rest => s' <- body s x ;; for_each body rest s'
  end.

(** ** validator/validators.py *)

Inductive CardScheme : Type := VISA | MASTERCARD | AMEX | DISCOVER | UNKNOWN.

Definition value (c : CardScheme) : str :=
  match c with
  | VISA => py "visa"
  | MASTERCARD => py "mastercard"
  | AMEX => py "amex"
  | DISCOVER => py "discover"
  | UNKNOWN => py "unknown"
  end.

Definition sanitize_number (value : str) : str :=
  re_sub_class not_digit_class [] value.

Definition validate_length (number : str) : result unit :=
  if negb ((12 <=? len number)%Z && (len number <=? 19)%Z)
  then Raise (ValidationError (py "Number must be between 12 and 19 digits."))
  else Return tt.

Definition validate_digits (number : str) : result unit :=
  if negb (isdigit number)
  then Raise (ValidationError (py "Number must contain only digits."))
  else Return tt.

Definition luhn_body (total : Z) (item : Z * Py_UCS4) : result Z :=
  let (i, digit) := item in
  n <- int digit ;;
  let n := if (i mod 2 =? 1)%Z
           then (let n := (n * 2)%Z in if (n >? 9)%Z then (n - 9)%Z else n)
           else n in
  Return (total + n)%Z.

Definition luhn_check (number : str) : result bool :=
  let reverse_digits := rev number in
  total <- for_each luhn_body (enumerate reverse_digits) 0%Z ;;
  Return (total mod 10 =? 0)%Z.

Definition detect_scheme (number : str) : str :=
  if startswith number (py "4") then value VISA
  else if startswith_any number [py "51"; py "52"; py "53"; py "54"; py "55"]
  then value MASTERCARD
  else if startswith_any number [py "34"; py "37"] then value AMEX
  else if startswith number (py "6") then value DISCOVER
  else value UNKNOWN.

Definition mask_number_for_logging (number : str) : str :=
  if (len number <? 4)%Z then py "****"
  else py "****" ++ slice_from number (-4).

(** ** validator/serializers.py *)

Definition validate_number (value : str) : result str :=
  let sanitized := sanitize_number value in
  validate_length sanitized ;;;
  validate_digits sanitized ;;;
  Return sanitized.

(** What [is_valid] leaves in a [ValidateSerializer]: the messages of the
    field in error, or the validated value of the field [number]. *)
Record ValidateSerializer : Type := {
  errors : list (list str);
  validated_number : option str
}.

(** *** The field [number = serializers.CharField()]

    The field is the framework's ([rest_framework.fields.CharField] with its
    default options: required, not nullable, blank refused, whitespace
    trimmed); [is_valid] runs it on the value found under the key [number]
    of the parsed body before it calls [validate_number]. *)

(** A value of the parsed JSON body, as far as the field tells values
    apart.  A number (an [int] or a [float]) is given by the text that
    [str] renders for it, which is all the field uses of it. *)
Inductive Primitive : Type :=
| PyNone
| PyBool (b : bool)
| PyNumber (text : str)
| PyStr (s : str)
| PyComposite.

(** What the field gives: the value it hands on, or its error messages. *)
Inductive field_result : Type :=
| Accepted (value : str)
| Rejected (messages : list str).

Definition is_surrogate (ch : Py_UCS4) : bool := (0xD800 <=? ch) && (ch <=? 0xDFFF).

(** The two validators every [CharField] carries; each gives the messages
    of the error it raises, if any. *)
Definition ProhibitNullCharactersValidator (value : str) : list str :=
  if existsb (N.eqb 0) value then [py "Null characters are not allowed."] else [].

Definition ProhibitSurrogateCharactersValidator (value : str) : list str :=
  match filter is_surrogate value with
  | [] => []
  | ch :: _ => [py "Surrogate characters are not allowed: U+" ++ format_X ch ++ py "."]
  end.

(** [Field.run_validators]: the errors of all validators are gathered. *)
Definition run_validators (value : str) : field_result :=
  match ProhibitNullCharactersValidator value ++ ProhibitSurrogateCharactersValidator value with
  | [] => Accepted value
  | messages => Rejected messages
  end.

(** The test [data == '' or str(data).strip() == ''] that opens
    [CharField.run_validation]; the text of a missing value, of [None], of
    a boolean, a list or a dict is never blank. *)
Definition is_blank (data : option Primitive) : bool :=
  match data with
  | Some (PyStr text) | Some (PyNumber text) =>
      match strip text with
      | [] => true
      | _ => false
      end
  | _ => false
  end.

(** [CharField.run_validation] on the value under the key ([None] when the
    key is absent): the blank test, then [validate_empty_values], then
    [to_internal_value], then the validators. *)
Definition CharField_run_validation (data : option Primitive) : field_result :=
  if is_blank data then Rejected [py "This field may not be blank."]
  else
    match data with
    | None => Rejected [py "This field is required."]
    | Some PyNone => Rejected [py "This field may not be null."]
    | Some (PyBool _) | Some PyComposite => Rejected [py "Not a valid string."]
    | Some (PyStr text) | Some (PyNumber text) => run_validators (strip text)
    end.

(** [ValidateSerializer(data=request.data)] followed by [is_valid()], for a
    body that is a JSON object: the field runs on the value under [number],
    then [validate_number] on what the field hands on.  A [ValidationError]
    is collected under the field, any other exception propagates. *)
Definition run_is_valid (number : option Primitive) : result ValidateSerializer :=
  match CharField_run_validation number with
  | Rejected messages =>
      Return {| errors := [messages]; validated_number := None |}
  | Accepted value =>
      match validate_number value with
      | Return sanitized =>
          Return {| errors := []; validated_number := Some sanitized |}
      | Raise (ValidationError detail) =>
          Return {| errors := [[detail]]; validated_number := None |}
      | Raise e => Raise e
      end
  end.

Definition is_valid (serializer : ValidateSerializer) : bool :=
  match errors serializer with
  | [] => true
  | _ => false
  end.

(** ** validator/views.py *)

(** A request whose body parsed as a JSON object: [data_number] is
    [request.data.get("number")], [None] when the key is absent;
    [request_id] is the attribute the logging middleware sets, if it ran. *)
Record Request : Type := {
  data_number : option Primitive;
  request_id : option str
}.

Inductive Body : Type :=
| ResultBody (valid : bool) (scheme : str) (message : str)
| ErrorBody (error : str).

Record Response : Type := {
  status : Z;
  data : Body
}.

Definition HTTP_200_OK : Z := 200.
Definition HTTP_400_BAD_REQUEST : Z := 400.

(** One [logger.info] call of the view: the message and its [extra]. *)
Record LogRecord : Type := {
  log_msg : str;
  log_scheme : str;
  log_valid : bool;
  log_masked_number : str;
  log_request_id : str
}.

(** [ValidateView.post]: the response and the records logged on the way. *)
Definition post (request : Request) : result (Response * list LogRecord) :=
  serializer <- run_is_valid (data_number request) ;;
  if negb (is_valid serializer) then
    let field_errors := errors serializer in
    error_message <-
      match field_errors with
      | [] => Return (py "Invalid input")
      | [] :: _ => Raise IndexError
      | (m :: _) :: _ => Return m
      end ;;
    Return ({| status := HTTP_400_BAD_REQUEST; data := ErrorBody error_message |}, [])
  else
    match validated_number serializer with
    | None => Raise IndexError
    | Some number =>
        is_valid <- luhn_check number ;;
        let scheme := detect_scheme number in
        let record :=
          {| log_msg := py "Card validation completed";
             log_scheme := scheme;
             log_valid := is_valid;
             log_masked_number := mask_number_for_logging number;
             log_request_id := match request_id request with
                               | Some id => id
                               | None => py "-"
                               end |} in
        Return ({| status := HTTP_200_OK;
                   data := ResultBody is_valid scheme
                             (if is_valid then py "OK" else py "Invalid card number") |},
                [record])
    end.

(** ** Vocabulary of the specification *)

(** The two validation failures, told apart by their message. *)
Definition LengthError : Exception :=
  ValidationError (py "Number must be between 12 and 19 digits.").
Definition FormatError : Exception :=
  ValidationError (py "Number must contain only digits.").

(** [Stripped keep s out]: [out] is [s] with every character that [keep]
    rejects removed, the others left in place and in order. *)
Inductive Stripped (keep : Py_UCS4 -> bool) : str -> str -> Prop :=
| Stripped_nil : Stripped keep [] []
| Stripped_keep ch s out :
    keep ch = true -> Stripped keep s out -> Stripped keep (ch :: s) (ch :: out)
| Stripped_drop ch s out :
    keep ch = false -> Stripped keep s out -> Stripped keep (ch :: s) out.

(** [s] begins with [prefix]. *)
Definition has_prefix (prefix s : str) : Prop := exists rest, s = prefix ++ rest.

(** The prefix conditions of the second and third rule of the cascade. *)
Definition mastercard_prefix (s : str) : Prop :=
  has_prefix (py "51") s \/ has_prefix (py "52") s \/ has_prefix (py "53") s \/
  has_prefix (py "54") s \/ has_prefix (py "55") s.

Definition amex_prefix (s : str) : Prop :=
  has_prefix (py "34") s \/ has_prefix (py "37") s.

(** The value of a decimal digit character. *)
Definition digit_value (ch : Py_UCS4) : Z :=
  match Unicode.ToDecimalDigit ch with
  | Some d => Z.of_N d
  | None => 0
  end.

(** The Luhn total as the specification words it: position [pos] counts from
    the right, from zero; odd positions are doubled and reduced by 9 when the
    doubled value exceeds 9. *)
Definition luhn_term (pos : nat) (d : Z) : Z :=
  if Nat.odd pos
  then (let doubled := (2 * d)%Z in if (9 <? doubled)%Z then (doubled - 9)%Z else doubled)
  else d.

Definition luhn_total (digits : list Z) : Z :=
  let from_right := rev digits in
  fold_right Z.add 0%Z
    (map (fun pos => luhn_term pos (nth pos from_right 0%Z))
         (seq 0 (List.length from_right))).

(** A submitted string that the field lets through: it is not blank (some
    character is not whitespace) and holds neither a NUL nor a surrogate. *)
Definition field_accepts (raw : str) : Prop :=
  (exists ch, In ch raw /\ Unicode.IsWhitespace ch = false) /\
  ~ In 0 raw /\
  (forall ch, In ch raw -> is_surrogate ch = false).

(** The record that [post] logs for the validated [number]. *)
Definition log_record (request : Request) (number : str) (ok : bool) : LogRecord :=
  {| log_msg := py "Card validation completed";
     log_scheme := detect_scheme number;
     log_valid := ok;
     log_masked_number := mask_number_for_logging number;
     log_request_id := match request_id request with
                       | Some id => id
                       | None => py "-"
                       end |}.

(** The terms of the total summed along the digits read from the right,
    the first of them standing at position [pos]. *)
Fixpoint terms_from (pos : nat) (from_right : list Z) : Z :=
  match from_right with
  | [] => 0%Z
  | d :: rest => (luhn_term pos d + terms_from (S pos) rest)%Z
  end.

(** * Properties *)

(** ** Character classes *)

Lemma run_digit_below (runs : list N) (ch : Py_UCS4) :
  Forall (fun first => ch < first) runs -> Unicode.run_digit runs ch = None.
Proof.
  induction 1 as [|first rest Hlt _ IH]; simpl; [reflexivity|].
  replace (first <=? ch) with false by (symmetry; apply N.leb_gt; exact Hlt).
  simpl. exact IH.
Qed.

Lemma run_digit_cons (first : N) (rest : list N) (ch : Py_UCS4) :
  Unicode.run_digit (first :: rest) ch =
  if (first <=? ch) && (ch <=? first + 9) then Some (ch - first)
  else Unicode.run_digit rest ch.
Proof. reflexivity. Qed.

Lemma ascii_digit_bounds (ch : Py_UCS4) :
  ascii_digit ch = true <-> 48 <= ch <= 57.
Proof.
  unfold ascii_digit. rewrite andb_true_iff, !N.leb_le. tauto.
Qed.

Lemma ascii_digit_ToDecimalDigit (ch : Py_UCS4) :
  ascii_digit ch = true -> Unicode.ToDecimalDigit ch = Some (ch - 48).
Proof.
  intros H. apply ascii_digit_bounds in H.
  unfold Unicode.ToDecimalDigit, Unicode.decimal_runs. rewrite run_digit_cons.
  replace (0x30 <=? ch) with true by (symmetry; apply N.leb_le; lia).
  replace (ch <=? 0x30 + 9) with true by (symmetry; apply N.leb_le; lia).
  reflexivity.
Qed.

Lemma ascii_digit_decimal (ch : Py_UCS4) :
  ascii_digit ch = true -> Unicode.IsDecimalDigit ch = true.
Proof.
  intros H. unfold Unicode.IsDecimalDigit.
  rewrite (ascii_digit_ToDecimalDigit ch H). reflexivity.
Qed.

Lemma ascii_digit_value (ch : Py_UCS4) :
  ascii_digit ch = true -> digit_value ch = (Z.of_N ch - 48)%Z.
Proof.
  intros H. unfold digit_value. rewrite (ascii_digit_ToDecimalDigit ch H).
  apply ascii_digit_bounds in H. lia.
Qed.

(** Below U+0080 the only decimal digits are "0" .. "9". *)
Lemma decimal_below_128 (ch : Py_UCS4) :
  ch < 128 -> Unicode.IsDecimalDigit ch = true -> ascii_digit ch = true.
Proof.
  intros Hlt. unfold Unicode.IsDecimalDigit, Unicode.ToDecimalDigit, Unicode.decimal_runs.
  rewrite run_digit_cons.
  destruct ((0x30 <=? ch) && (ch <=? 0x30 + 9)) eqn:E.
  - intros _. apply andb_true_iff in E. destruct E as [E1 E2].
    apply N.leb_le in E1, E2. apply ascii_digit_bounds. lia.
  - rewrite run_digit_below; [discriminate|].
    repeat constructor; lia.
Qed.

Lemma decimal_is_digit (ch : Py_UCS4) :
  Unicode.IsDecimalDigit ch = true -> Unicode.IsDigit ch = true.
Proof.
  intros H. unfold Unicode.IsDigit. rewrite H. reflexivity.
Qed.

Lemma decimal_digit_value_range (ch : Py_UCS4) :
  (0 <= digit_value ch <= 9)%Z.
Proof.
  unfold digit_value, Unicode.ToDecimalDigit.
  induction Unicode.decimal_runs as [|first rest IH]; simpl; [lia|].
  destruct ((first <=? ch) && (ch <=? first + 9)) eqn:E; [|exact IH].
  apply andb_true_iff in E. destruct E as [E1 E2].
  apply N.leb_le in E1, E2. lia.
Qed.

(** ** sanitize_number *)

Lemma sanitize_number_filter (s : str) :
  sanitize_number s = filter Unicode.IsDecimalDigit s.
Proof.
  unfold sanitize_number, not_digit_class.
  induction s as [|ch s IH]; simpl; [reflexivity|].
  destruct (Unicode.IsDecimalDigit ch); simpl; rewrite IH; reflexivity.
Qed.

Lemma sanitize_number_decimal (s : str) :
  forallb Unicode.IsDecimalDigit (sanitize_number s) = true.
Proof.
  rewrite sanitize_number_filter. apply forallb_forall.
  intros ch Hin. apply filter_In in Hin. tauto.
Qed.

Lemma sanitize_number_fixed (s : str) :
  forallb Unicode.IsDecimalDigit s = true -> sanitize_number s = s.
Proof.
  rewrite sanitize_number_filter.
  induction s as [|ch s IH]; simpl; [reflexivity|].
  intros H. apply andb_true_iff in H. destruct H as [Hch Hs].
  rewrite Hch, (IH Hs). reflexivity.
Qed.

Lemma forallb_ascii_decimal (s : str) :
  forallb ascii_digit s = true -> forallb Unicode.IsDecimalDigit s = true.
Proof.
  rewrite !forallb_forall. intros H ch Hin. apply ascii_digit_decimal, H, Hin.
Qed.

Lemma sanitize_number_stripped (s : str) :
  Stripped Unicode.IsDecimalDigit s (sanitize_number s).
Proof.
  rewrite sanitize_number_filter.
  induction s as [|ch s IH]; simpl; [constructor|].
  destruct (Unicode.IsDecimalDigit ch) eqn:E.
  - apply Stripped_keep; assumption.
  - apply Stripped_drop; assumption.
Qed.

(** [Stripped] determines its output, so it does describe one string. *)
Lemma Stripped_functional (keep : Py_UCS4 -> bool) (s out1 out2 : str) :
  Stripped keep s out1 -> Stripped keep s out2 -> out1 = out2.
Proof.
  intros H1. revert out2.
  induction H1 as [|ch s out Hk _ IH|ch s out Hk _ IH]; intros out2 H2;
    inversion H2; subst; try congruence.
  - f_equal. apply IH. assumption.
  - apply IH. assumption.
Qed.

(** ** luhn_check *)

Lemma int_decimal (ch : Py_UCS4) :
  Unicode.IsDecimalDigit ch = true -> int ch = Return (digit_value ch).
Proof.
  unfold Unicode.IsDecimalDigit, int, digit_value.
  destruct (Unicode.ToDecimalDigit ch); [reflexivity|discriminate].
Qed.

Lemma index_parity (p : nat) : (Z.of_nat p mod 2 =? 1)%Z = Nat.odd p.
Proof.
  rewrite Zmod_odd.
  replace (Z.odd (Z.of_nat p)) with (Nat.odd p).
  - destruct (Nat.odd p); reflexivity.
  - induction p as [|p IH]; [reflexivity|].
    rewrite Nat.odd_succ, Nat2Z.inj_succ, Z.odd_succ.
    rewrite <- Nat.negb_odd, <- Z.negb_odd, IH. reflexivity.
Qed.

Lemma luhn_body_term (total : Z) (p : nat) (ch : Py_UCS4) :
  Unicode.IsDecimalDigit ch = true ->
  luhn_body total (Z.of_nat p, ch) = Return (total + luhn_term p (digit_value ch))%Z.
Proof.
  intros H. unfold luhn_body. rewrite (int_decimal ch H). unfold bind.
  rewrite index_parity. unfold luhn_term.
  destruct (Nat.odd p); [|reflexivity].
  cbv zeta. rewrite Z.gtb_ltb, (Z.mul_comm (digit_value ch) 2). reflexivity.
Qed.

(** The loop over the reversed string, started at index [k] with [acc]. *)
Lemma luhn_loop (r : str) :
  forall (k : nat) (acc : Z),
    forallb Unicode.IsDecimalDigit r = true ->
    for_each luhn_body (enumerate_from (Z.of_nat k) r) acc =
    Return (acc + fold_right Z.add 0%Z
                    (map (fun j => luhn_term (k + j) (nth j (map digit_value r) 0%Z))
                         (seq 0 (List.length r))))%Z.
Proof.
  induction r as [|ch r IH]; intros k acc Hall.
  - simpl. f_equal. lia.
  - simpl in Hall. apply andb_true_iff in Hall. destruct Hall as [Hch Hr].
    cbn [enumerate_from for_each].
    rewrite (luhn_body_term acc k ch Hch). unfold bind.
    replace (Z.of_nat k + 1)%Z with (Z.of_nat (S k)) by lia.
    rewrite (IH (S k) _ Hr).
    cbn [List.length seq map fold_right]. rewrite <- seq_shift, map_map.
    rewrite Nat.add_0_r. cbn [nth].
    f_equal. rewrite Z.add_assoc. f_equal. f_equal.
    apply map_ext. intros j. rewrite Nat.add_succ_r. reflexivity.
Qed.

Lemma forallb_rev {A : Type} (f : A -> bool) (l : list A) :
  forallb f l = true -> forallb f (rev l) = true.
Proof.
  rewrite !forallb_forall. intros H x Hin. apply H, in_rev, Hin.
Qed.

(** On a string of decimal digits the loop computes the total of the
    specification and nothing raises. *)
Lemma luhn_check_total (number : str) :
  forallb Unicode.IsDecimalDigit number = true ->
  luhn_check number = Return (luhn_total (map digit_value number) mod 10 =? 0)%Z.
Proof.
  intros H. unfold luhn_check, enumerate.
  change 0%Z with (Z.of_nat 0) at 1.
  rewrite (luhn_loop (rev number) 0 0%Z (forallb_rev _ _ H)). unfold bind.
  unfold luhn_total. rewrite <- map_rev, length_map. reflexivity.
Qed.

(** C1: on every non-empty string of decimal digits [luhn_check] returns,
    and returns true exactly when the total of the specification (digits
    taken from the right, those at odd positions doubled and reduced by 9
    when the double exceeds 9, all summed) is divisible by 10.  This holds
    for the strings of "0" .. "9", a digit being worth [ch - 48], and more
    generally for the strings of Unicode decimal digits, which [int] reads
    as well.  The three known vectors evaluate as listed. *)
Theorem luhn_check_spec :
  (forall number : str,
      number <> [] ->
      forallb ascii_digit number = true ->
      exists ok : bool,
        luhn_check number = Return ok /\
        (ok = true <->
         (10 | luhn_total (map (fun ch => Z.of_N ch - 48) number))%Z)) /\
  (forall number : str,
      number <> [] ->
      forallb Unicode.IsDecimalDigit number = true ->
      exists ok : bool,
        luhn_check number = Return ok /\
        (ok = true <-> (10 | luhn_total (map digit_value number))%Z)) /\
  luhn_check (py "4532015112830366") = Return true /\
  luhn_check (py "4532015112830367") = Return false /\
  luhn_check (py "0000000000000000") = Return true.
Proof.
  assert (Hgen : forall number : str,
             forallb Unicode.IsDecimalDigit number = true ->
             exists ok : bool,
               luhn_check number = Return ok /\
               (ok = true <-> (10 | luhn_total (map digit_value number))%Z)).
  { intros number Hall.
    exists (luhn_total (map digit_value number) mod 10 =? 0)%Z.
    split; [apply luhn_check_total, Hall|].
    rewrite Z.eqb_eq. apply Z.mod_divide. discriminate. }
  split; [|split; [|repeat split; vm_compute; reflexivity]].
  - intros number _ Hall.
    replace (map (fun ch => Z.of_N ch - 48)%Z number) with (map digit_value number).
    + apply Hgen, forallb_ascii_decimal, Hall.
    + apply map_ext_in. intros ch Hin. apply ascii_digit_value.
      rewrite forallb_forall in Hall. apply Hall, Hin.
  - intros number _ Hall. apply Hgen, Hall.
Qed.

Lemma luhn_check_spec_witness :
  (exists ok : bool,
      luhn_check (py "79927398713") = Return ok /\
      (ok = true <->
       (10 | luhn_total (map (fun ch => Z.of_N ch - 48) (py "79927398713")))%Z)) /\
  (exists ok : bool,
      luhn_check [0x0661; 0x0668] = Return ok /\
      (ok = true <-> (10 | luhn_total (map digit_value [0x0661%N; 0x0668%N]))%Z)).
Proof.
  split.
  - apply (proj1 luhn_check_spec (py "79927398713")).
    + vm_compute. discriminate.
    + vm_compute. reflexivity.
  - apply (proj1 (proj2 luhn_check_spec) [0x0661; 0x0668]).
    + discriminate.
    + vm_compute. reflexivity.
Defined.

(** C8: on the empty string the loop runs no iteration, the total is 0 and
    [luhn_check] returns true. *)
Theorem luhn_check_empty : luhn_check [] = Return true.
Proof. reflexivity. Qed.

(** C3, as the code has it: [sanitize_number] is total; its output holds
    only decimal digits in the sense of the pattern [\d] of a [str] regular
    expression (any Unicode decimal digit, "0" .. "9" among them); it is
    exactly the input with every other character removed and the order
    kept; and when the input is ASCII the output holds only "0" .. "9". *)
Theorem sanitize_number_spec (s : str) :
  forallb Unicode.IsDecimalDigit (sanitize_number s) = true /\
  Stripped Unicode.IsDecimalDigit s (sanitize_number s) /\
  (forall out : str, Stripped Unicode.IsDecimalDigit s out -> out = sanitize_number s) /\
  (Forall (fun ch => ch < 128) s -> forallb ascii_digit (sanitize_number s) = true).
Proof.
  split; [apply sanitize_number_decimal|].
  split; [apply sanitize_number_stripped|].
  split.
  - intros out H.
    exact (Stripped_functional _ _ _ _ H (sanitize_number_stripped s)).
  - intros Hascii. rewrite sanitize_number_filter. apply forallb_forall.
    intros ch Hin. apply filter_In in Hin. destruct Hin as [Hin Hdec].
    rewrite Forall_forall in Hascii. apply decimal_below_128; auto.
Qed.

Lemma sanitize_number_spec_witness :
  forallb ascii_digit (sanitize_number (py "4532-0151 1283-0366")) = true.
Proof.
  apply (proj2 (proj2 (proj2 (sanitize_number_spec (py "4532-0151 1283-0366"))))).
  vm_compute. repeat constructor.
Defined.

(** C3 as stated fails: U+0663 ARABIC-INDIC DIGIT THREE is matched by [\d],
    so it survives sanitization although it is not one of "0" .. "9". *)
Lemma sanitize_number_keeps_non_ascii_digit :
  sanitize_number [0x0663] = [0x0663] /\
  ~ forallb ascii_digit (sanitize_number [0x0663]) = true.
Proof.
  split; [reflexivity|]. vm_compute. discriminate.
Qed.

(** C9: [sanitize_number] is idempotent, and it is the identity on every
    string of decimal digits (of "0" .. "9" in particular). *)
Theorem sanitize_number_idempotent (s : str) :
  sanitize_number (sanitize_number s) = sanitize_number s /\
  (forallb Unicode.IsDecimalDigit s = true -> sanitize_number s = s) /\
  (forallb ascii_digit s = true -> sanitize_number s = s).
Proof.
  split; [apply sanitize_number_fixed, sanitize_number_decimal|].
  split; [apply sanitize_number_fixed|].
  intros H. apply sanitize_number_fixed, forallb_ascii_decimal, H.
Qed.

Lemma sanitize_number_idempotent_witness :
  sanitize_number (py "4532015112830366") = py "4532015112830366" /\
  sanitize_number [0x0664; 0x0665] = [0x0664; 0x0665].
Proof.
  split.
  - apply (proj2 (proj2 (sanitize_number_idempotent (py "4532015112830366")))).
    vm_compute. reflexivity.
  - apply (proj1 (proj2 (sanitize_number_idempotent [0x0664; 0x0665]))).
    vm_compute. reflexivity.
Defined.

(** ** validate_length and validate_digits *)

Lemma validate_length_cases (number : str) :
  (12 <= List.length number <= 19)%nat /\ validate_length number = Return tt \/
  (List.length number < 12 \/ 19 < List.length number)%nat /\
  validate_length number = Raise LengthError.
Proof.
  unfold validate_length, LengthError, len.
  destruct (12 <=? Z.of_nat (List.length number))%Z eqn:E1;
    destruct (Z.of_nat (List.length number) <=? 19)%Z eqn:E2; simpl;
    rewrite ?Z.leb_le, ?Z.leb_gt in E1, E2;
    ((left; split; [lia|reflexivity]) || (right; split; [lia|reflexivity])).
Qed.

(** C5: [validate_length] fails, with the length error, exactly when the
    number of characters is outside 12..19, and succeeds otherwise; digit
    strings of 12 and of 19 characters pass, of 11 and of 20 fail. *)
Theorem validate_length_spec :
  (forall number : str,
      validate_length number = Raise LengthError <->
      (List.length number < 12 \/ 19 < List.length number)%nat) /\
  (forall number : str,
      validate_length number = Return tt <->
      (12 <= List.length number <= 19)%nat) /\
  (forall number : str,
      forallb ascii_digit number = true ->
      (List.length number = 12%nat \/ List.length number = 19%nat ->
       validate_length number = Return tt) /\
      (List.length number = 11%nat \/ List.length number = 20%nat ->
       validate_length number = Raise LengthError)).
Proof.
  split; [|split].
  - intros number. destruct (validate_length_cases number) as [[Hl Hv]|[Hl Hv]];
      rewrite Hv; split; intros H; try discriminate; try lia; reflexivity.
  - intros number. destruct (validate_length_cases number) as [[Hl Hv]|[Hl Hv]];
      rewrite Hv; split; intros H; try discriminate; try lia; reflexivity.
  - intros number _.
    destruct (validate_length_cases number) as [[Hl Hv]|[Hl Hv]];
      rewrite Hv; split; intros H; try reflexivity; lia.
Qed.

Lemma validate_length_spec_witness :
  validate_length (py "123456789012") = Return tt /\
  validate_length (py "1234567890123456789") = Return tt /\
  validate_length (py "12345678901") = Raise LengthError /\
  validate_length (py "12345678901234567890") = Raise LengthError /\
  validate_length (py "12345") = Raise LengthError.
Proof.
  pose proof validate_length_spec as [Hfail [_ Hdigits]].
  split; [|split; [|split; [|split]]].
  - apply (Hdigits (py "123456789012")); [vm_compute; reflexivity|].
    left. reflexivity.
  - apply (Hdigits (py "1234567890123456789")); [vm_compute; reflexivity|].
    right. reflexivity.
  - apply (Hdigits (py "12345678901")); [vm_compute; reflexivity|].
    left. reflexivity.
  - apply (Hdigits (py "12345678901234567890")); [vm_compute; reflexivity|].
    right. reflexivity.
  - apply (Hfail (py "12345")). left. vm_compute. lia.
Defined.

Lemma isdigit_true (s : str) :
  isdigit s = true <-> s <> [] /\ forallb Unicode.IsDigit s = true.
Proof.
  destruct s as [|ch s]; simpl.
  - split; [discriminate|]. intros [H _]. contradiction.
  - split; [intros H; split; [discriminate|exact H]|tauto].
Qed.

Lemma forallb_false_exists {A : Type} (f : A -> bool) (l : list A) :
  forallb f l = false <-> exists x, In x l /\ f x = false.
Proof.
  induction l as [|a l IH]; simpl.
  - split; [discriminate|]. intros [x [[] _]].
  - rewrite andb_false_iff, IH. split.
    + intros [H|[x [Hin Hx]]]; [exists a|exists x]; auto.
    + intros [x [[->|Hin] Hx]]; [left; exact Hx|right; exists x; auto].
Qed.

Lemma validate_digits_cases (number : str) :
  isdigit number = true /\ validate_digits number = Return tt \/
  isdigit number = false /\ validate_digits number = Raise FormatError.
Proof.
  unfold validate_digits, FormatError.
  destruct (isdigit number); simpl; [left|right]; split; reflexivity.
Qed.

Lemma other_digit_above (ch : Py_UCS4) (ranges : list (N * N)) :
  Forall (fun r => ch < fst r) ranges ->
  existsb (Unicode.in_range ch) ranges = false.
Proof.
  induction 1 as [|r ranges Hlt _ IH]; simpl; [reflexivity|].
  unfold Unicode.in_range at 1.
  replace (fst r <=? ch) with false by (symmetry; apply N.leb_gt; exact Hlt).
  simpl. exact IH.
Qed.

(** Below U+0080 [str.isdigit] and the decimal digits agree. *)
Lemma digit_below_128 (ch : Py_UCS4) :
  ch < 128 -> Unicode.IsDigit ch = true -> Unicode.IsDecimalDigit ch = true.
Proof.
  intros Hlt. unfold Unicode.IsDigit.
  rewrite (other_digit_above ch Unicode.other_digit_ranges).
  - rewrite orb_false_r. tauto.
  - unfold Unicode.other_digit_ranges. repeat constructor; simpl; lia.
Qed.

(** C6, as the code has it by design.  The empty string is rejected.  A
    non-empty string of decimal digits, of "0" .. "9" in particular, is
    accepted.  And on every string that holds no digit-like character
    without decimal value (on every ASCII string in particular)
    [validate_digits] fails, with the format error, exactly when the string
    is empty or holds a character that is not a decimal digit.  Nothing is
    said of the strings that hold a superscript, a circled digit or the
    like. *)
Theorem validate_digits_spec (number : str) :
  (number = [] -> validate_digits number = Raise FormatError) /\
  (number <> [] -> forallb Unicode.IsDecimalDigit number = true ->
   validate_digits number = Return tt) /\
  (number <> [] -> forallb ascii_digit number = true ->
   validate_digits number = Return tt) /\
  ((forall ch, In ch number -> Unicode.IsDigit ch = true ->
               Unicode.IsDecimalDigit ch = true) ->
   (validate_digits number = Raise FormatError <->
    number = [] \/ exists ch, In ch number /\ Unicode.IsDecimalDigit ch = false)) /\
  (Forall (fun ch => ch < 128) number ->
   (validate_digits number = Raise FormatError <->
    number = [] \/ exists ch, In ch number /\ ascii_digit ch = false)).
Proof.
  assert (Hdec : number <> [] -> forallb Unicode.IsDecimalDigit number = true ->
                 validate_digits number = Return tt).
  { intros Hne Hall.
    destruct (validate_digits_cases number) as [[_ Hv]|[Hd _]]; [exact Hv|].
    assert (Ht : isdigit number = true).
    { apply isdigit_true. split; [exact Hne|].
      rewrite forallb_forall in *. intros ch Hin. apply decimal_is_digit, Hall, Hin. }
    congruence. }
  assert (Hiff : (forall ch, In ch number -> Unicode.IsDigit ch = true ->
                             Unicode.IsDecimalDigit ch = true) ->
                 (validate_digits number = Raise FormatError <->
                  number = [] \/
                  exists ch, In ch number /\ Unicode.IsDecimalDigit ch = false)).
  { intros Hplain.
    destruct (validate_digits_cases number) as [[Hd Hv]|[Hd Hv]]; rewrite Hv.
    - apply isdigit_true in Hd. destruct Hd as [Hne Hall].
      split; [discriminate|]. intros [He|[ch [Hin Hch]]]; [contradiction|].
      rewrite forallb_forall in Hall.
      rewrite (Hplain ch Hin (Hall ch Hin)) in Hch. discriminate.
    - split; [|reflexivity]. intros _.
      destruct number as [|c rest]; [left; reflexivity|right].
      apply forallb_false_exists in Hd. destruct Hd as [ch [Hin Hch]].
      exists ch. split; [exact Hin|].
      destruct (Unicode.IsDecimalDigit ch) eqn:E; [|reflexivity].
      rewrite (decimal_is_digit ch E) in Hch. discriminate. }
  split; [|split; [|split; [|split]]].
  - intros ->. reflexivity.
  - exact Hdec.
  - intros Hne Hall. apply Hdec; [exact Hne|]. apply forallb_ascii_decimal, Hall.
  - exact Hiff.
  - intros Hascii. rewrite Forall_forall in Hascii.
    rewrite Hiff by (intros ch Hin; apply digit_below_128, Hascii, Hin).
    split; (intros [He|[ch [Hin Hch]]]; [left; exact He|right; exists ch]);
      (split; [exact Hin|]).
    + destruct (ascii_digit ch) eqn:E; [|reflexivity].
      rewrite (ascii_digit_decimal ch E) in Hch. discriminate.
    + destruct (Unicode.IsDecimalDigit ch) eqn:E; [|reflexivity].
      rewrite (decimal_below_128 ch (Hascii ch Hin) E) in Hch. discriminate.
Qed.

Lemma validate_digits_spec_witness :
  validate_digits (py "1234567890") = Return tt /\
  validate_digits [0x0661; 0x0662] = Return tt /\
  validate_digits (py "1234-5678") = Raise FormatError /\
  validate_digits [0x0661; 0x0020] = Raise FormatError.
Proof.
  split; [|split; [|split]].
  - apply (proj1 (proj2 (proj2 (validate_digits_spec (py "1234567890"))))).
    + vm_compute. discriminate.
    + vm_compute. reflexivity.
  - apply (proj1 (proj2 (validate_digits_spec [0x0661; 0x0662]))).
    + discriminate.
    + vm_compute. reflexivity.
  - apply (proj2 (proj2 (proj2 (proj2 (validate_digits_spec (py "1234-5678")))))).
    + vm_compute. repeat constructor.
    + right. exists (ord "-"%char). split; [vm_compute; tauto|reflexivity].
  - apply (proj1 (proj2 (proj2 (proj2 (validate_digits_spec [0x0661; 0x0020]))))).
    + intros ch [<-|[<-|[]]] H; [reflexivity|vm_compute in H; discriminate H].
    + right. exists 0x0020. split; [right; left; reflexivity|reflexivity].
Defined.

(** C6 as stated fails on the empty string: it holds no character at all,
    each of its characters is a decimal digit, and yet [validate_digits]
    rejects it. *)
Lemma validate_digits_not_iff_non_decimal :
  validate_digits [] = Raise FormatError /\
  forallb Unicode.IsDecimalDigit [] = true /\
  ~ exists ch, In ch [] /\ Unicode.IsDecimalDigit ch = false.
Proof.
  split; [reflexivity|]. split; [reflexivity|].
  intros [ch [[] _]].
Qed.

(** Where [validate_digits] parts from its siblings: [str.isdigit] lets the
    digit-like characters without decimal value through (U+00B2 SUPERSCRIPT
    TWO here), which [sanitize_number] removes and on which [luhn_check]
    raises. *)
Lemma validate_digits_accepts_superscript :
  validate_digits [0x00B2] = Return tt /\
  Unicode.IsDecimalDigit 0x00B2 = false /\
  sanitize_number [0x00B2] = [] /\
  luhn_check [0x00B2] = Raise ValueError.
Proof.
  repeat split; vm_compute; reflexivity.
Qed.

(** ** mask_number_for_logging *)

Lemma slice_last4 (number : str) :
  (4 <= List.length number)%nat ->
  slice_from number (-4) = skipn (List.length number - 4) number.
Proof.
  intros H. unfold slice_from, len.
  replace (-4 <? 0)%Z with true by reflexivity.
  f_equal. lia.
Qed.

(** C7: below four characters the mask is "****"; from four characters on it
    is "****" followed by exactly the last four characters of the input,
    eight characters in all; the three vectors evaluate as listed. *)
Theorem mask_number_for_logging_spec :
  (forall number : str,
      (List.length number < 4)%nat ->
      mask_number_for_logging number = py "****") /\
  (forall number : str,
      (4 <= List.length number)%nat ->
      exists front last4 : str,
        number = front ++ last4 /\
        List.length last4 = 4%nat /\
        mask_number_for_logging number = py "****" ++ last4 /\
        List.length (mask_number_for_logging number) = 8%nat) /\
  mask_number_for_logging (py "4532015112830366") = py "****0366" /\
  mask_number_for_logging (py "123") = py "****" /\
  mask_number_for_logging (py "1234") = py "****1234".
Proof.
  split; [|split; [|repeat split; vm_compute; reflexivity]].
  - intros number H. unfold mask_number_for_logging, len.
    replace (Z.of_nat (List.length number) <? 4)%Z with true
      by (symmetry; apply Z.ltb_lt; lia).
    reflexivity.
  - intros number H.
    assert (Hmask : mask_number_for_logging number =
                    py "****" ++ skipn (List.length number - 4) number).
    { unfold mask_number_for_logging, len.
      replace (Z.of_nat (List.length number) <? 4)%Z with false
        by (symmetry; apply Z.ltb_ge; lia).
      rewrite (slice_last4 number H). reflexivity. }
    assert (Hlen : List.length (skipn (List.length number - 4) number) = 4%nat).
    { rewrite length_skipn. lia. }
    exists (firstn (List.length number - 4) number),
           (skipn (List.length number - 4) number).
    split; [symmetry; apply firstn_skipn|].
    split; [exact Hlen|].
    split; [exact Hmask|].
    rewrite Hmask, length_app, Hlen. reflexivity.
Qed.

Lemma mask_number_for_logging_spec_witness :
  mask_number_for_logging (py "12") = py "****" /\
  exists front last4 : str,
    py "5425233430109903" = front ++ last4 /\
    List.length last4 = 4%nat /\
    mask_number_for_logging (py "5425233430109903") = py "****" ++ last4 /\
    List.length (mask_number_for_logging (py "5425233430109903")) = 8%nat.
Proof.
  split.
  - apply (proj1 mask_number_for_logging_spec (py "12")). vm_compute. lia.
  - apply (proj1 (proj2 mask_number_for_logging_spec) (py "5425233430109903")).
    vm_compute. lia.
Defined.

(** ** detect_scheme *)

Lemma startswith_has_prefix (prefix : str) :
  forall s : str, startswith s prefix = true <-> has_prefix prefix s.
Proof.
  unfold has_prefix.
  induction prefix as [|p prefix IH]; intros s.
  - destruct s; simpl; (split; [intros _; eexists; reflexivity|reflexivity]).
  - destruct s as [|ch s]; simpl.
    + split; [discriminate|]. intros [rest H]. discriminate H.
    + rewrite andb_true_iff, N.eqb_eq, IH. split.
      * intros [-> [rest ->]]. exists rest. reflexivity.
      * intros [rest H]. injection H as -> ->. split; [reflexivity|].
        exists rest. reflexivity.
Qed.

Lemma startswith_mastercard (s : str) :
  startswith_any s [py "51"; py "52"; py "53"; py "54"; py "55"] = true <->
  mastercard_prefix s.
Proof.
  unfold startswith_any, mastercard_prefix. cbn [existsb].
  rewrite !orb_true_iff, !startswith_has_prefix. intuition discriminate.
Qed.

Lemma startswith_amex (s : str) :
  startswith_any s [py "34"; py "37"] = true <-> amex_prefix s.
Proof.
  unfold startswith_any, amex_prefix. cbn [existsb].
  rewrite !orb_true_iff, !startswith_has_prefix. intuition discriminate.
Qed.

Lemma value_injective (c1 c2 : CardScheme) : value c1 = value c2 -> c1 = c2.
Proof.
  destruct c1, c2; intros H; try reflexivity; vm_compute in H; discriminate H.
Qed.

(** The cascade, rule by rule. *)
Lemma detect_scheme_cases (number : str) :
  has_prefix (py "4") number /\ detect_scheme number = value VISA \/
  ~ has_prefix (py "4") number /\
  (mastercard_prefix number /\ detect_scheme number = value MASTERCARD \/
   ~ mastercard_prefix number /\
   (amex_prefix number /\ detect_scheme number = value AMEX \/
    ~ amex_prefix number /\
    (has_prefix (py "6") number /\ detect_scheme number = value DISCOVER \/
     ~ has_prefix (py "6") number /\ detect_scheme number = value UNKNOWN))).
Proof.
  unfold detect_scheme.
  destruct (startswith number (py "4")) eqn:E4.
  { left. split; [apply startswith_has_prefix, E4|reflexivity]. }
  right. split.
  { intros H. apply startswith_has_prefix in H. congruence. }
  destruct (startswith_any number [py "51"; py "52"; py "53"; py "54"; py "55"]) eqn:E5.
  { left. split; [apply startswith_mastercard, E5|reflexivity]. }
  right. split.
  { intros H. apply startswith_mastercard in H. congruence. }
  destruct (startswith_any number [py "34"; py "37"]) eqn:E3.
  { left. split; [apply startswith_amex, E3|reflexivity]. }
  right. split.
  { intros H. apply startswith_amex in H. congruence. }
  destruct (startswith number (py "6")) eqn:E6.
  { left. split; [apply startswith_has_prefix, E6|reflexivity]. }
  right. split; [|reflexivity].
  intros H. apply startswith_has_prefix in H. congruence.
Qed.

(** C2: on every string (digits or not, of any length) [detect_scheme]
    returns the value of exactly one scheme, the one of the first rule of
    the cascade that matches: "4" gives visa; else "51" .. "55" give
    mastercard; else "34" or "37" give amex; else "6" gives discover; else
    unknown.  The five scheme vectors evaluate as listed. *)
Theorem detect_scheme_spec :
  (forall number : str,
      (exists! c : CardScheme, detect_scheme number = value c) /\
      (has_prefix (py "4") number -> detect_scheme number = value VISA) /\
      (~ has_prefix (py "4") number -> mastercard_prefix number ->
       detect_scheme number = value MASTERCARD) /\
      (~ has_prefix (py "4") number -> ~ mastercard_prefix number ->
       amex_prefix number -> detect_scheme number = value AMEX) /\
      (~ has_prefix (py "4") number -> ~ mastercard_prefix number ->
       ~ amex_prefix number -> has_prefix (py "6") number ->
       detect_scheme number = value DISCOVER) /\
      (~ has_prefix (py "4") number -> ~ mastercard_prefix number ->
       ~ amex_prefix number -> ~ has_prefix (py "6") number ->
       detect_scheme number = value UNKNOWN)) /\
  detect_scheme (py "4532015112830366") = value VISA /\
  detect_scheme (py "5425233430109903") = value MASTERCARD /\
  detect_scheme (py "374245455400126") = value AMEX /\
  detect_scheme (py "6011000000000012") = value DISCOVER /\
  detect_scheme (py "9999999999999999") = value UNKNOWN.
Proof.
  split; [|repeat split; vm_compute; reflexivity].
  intros number. split.
  - assert (H : exists c, detect_scheme number = value c).
    { destruct (detect_scheme_cases number)
        as [[_ H]|[_ [[_ H]|[_ [[_ H]|[_ [[_ H]|[_ H]]]]]]]];
        eexists; exact H. }
    destruct H as [c Hc]. exists c. split; [exact Hc|].
    intros c' Hc'. apply value_injective. congruence.
  - destruct (detect_scheme_cases number)
      as [[P4 H]|[N4 [[P5 H]|[N5 [[P3 H]|[N3 [[P6 H]|[N6 H]]]]]]]];
      repeat split; intros; try exact H; contradiction.
Qed.

Lemma detect_scheme_spec_witness :
  detect_scheme (py "4111111111111111") = value VISA /\
  detect_scheme (py "5311111111111111") = value MASTERCARD /\
  detect_scheme (py "1234") = value UNKNOWN.
Proof.
  assert (no : forall p s : str, startswith s p = false -> ~ has_prefix p s).
  { intros p s E H. apply startswith_has_prefix in H. congruence. }
  split; [|split].
  - apply (proj1 detect_scheme_spec (py "4111111111111111")).
    exists (py "111111111111111"). reflexivity.
  - apply (proj1 detect_scheme_spec (py "5311111111111111")).
    + apply no. reflexivity.
    + right. right. left. exists (py "11111111111111"). reflexivity.
  - apply (proj1 detect_scheme_spec (py "1234")).
    + apply no. reflexivity.
    + intros H. apply startswith_mastercard in H. discriminate H.
    + intros H. apply startswith_amex in H. discriminate H.
    + apply no. reflexivity.
Defined.

(** C10: the empty string matches no prefix, so [detect_scheme] returns
    unknown. *)
Theorem detect_scheme_empty : detect_scheme [] = value UNKNOWN.
Proof. reflexivity. Qed.

(** ** The request-level pipeline *)

Lemma validate_number_checked (raw : str) :
  validate_length (sanitize_number raw) = Return tt ->
  validate_digits (sanitize_number raw) = Return tt ->
  validate_number raw = Return (sanitize_number raw).
Proof.
  intros Hlen Hdig. unfold validate_number. cbv zeta.
  rewrite Hlen, Hdig. reflexivity.
Qed.

(** * Further properties of the validators *)

(** ** The loop of luhn_check, piece by piece *)

Lemma enumerate_from_app {A : Type} (a b : list A) :
  forall start : Z,
    enumerate_from start (a ++ b) =
    enumerate_from start a ++ enumerate_from (start + Z.of_nat (List.length a)) b.
Proof.
  induction a as [|x a IH]; intros start.
  - simpl. rewrite Z.add_0_r. reflexivity.
  - cbn [app enumerate_from List.length]. rewrite IH. do 3 f_equal. lia.
Qed.

Lemma for_each_app {S A : Type} (body : S -> A -> result S) (a b : list A) :
  forall s : S,
    for_each body (a ++ b) s = (s' <- for_each body a s ;; for_each body b s').
Proof.
  induction a as [|x a IH]; intros s; [reflexivity|].
  cbn [app for_each]. destruct (body s x) as [s'|e]; simpl; [apply IH|reflexivity].
Qed.

Lemma luhn_loop_terms (r : str) :
  forall (k : nat) (acc : Z),
    forallb Unicode.IsDecimalDigit r = true ->
    for_each luhn_body (enumerate_from (Z.of_nat k) r) acc =
    Return (acc + terms_from k (map digit_value r))%Z.
Proof.
  induction r as [|ch r IH]; intros k acc Hall.
  - simpl. rewrite Z.add_0_r. reflexivity.
  - simpl in Hall. apply andb_true_iff in Hall. destruct Hall as [Hch Hr].
    cbn [enumerate_from for_each map terms_from].
    rewrite (luhn_body_term acc k ch Hch). unfold bind.
    replace (Z.of_nat k + 1)%Z with (Z.of_nat (S k)) by lia.
    rewrite (IH (S k) _ Hr). f_equal. lia.
Qed.

Lemma luhn_body_non_decimal (total i : Z) (ch : Py_UCS4) :
  Unicode.IsDecimalDigit ch = false -> luhn_body total (i, ch) = Raise ValueError.
Proof.
  unfold Unicode.IsDecimalDigit, luhn_body, int.
  destruct (Unicode.ToDecimalDigit ch); [discriminate|reflexivity].
Qed.

Lemma luhn_body_decimal (total i : Z) (ch : Py_UCS4) :
  Unicode.IsDecimalDigit ch = true -> exists total', luhn_body total (i, ch) = Return total'.
Proof.
  unfold Unicode.IsDecimalDigit, luhn_body, int.
  destruct (Unicode.ToDecimalDigit ch); [|discriminate].
  intros _. eexists. reflexivity.
Qed.

Lemma luhn_loop_raises (r : str) :
  forall (i acc : Z),
    forallb Unicode.IsDecimalDigit r = false ->
    for_each luhn_body (enumerate_from i r) acc = Raise ValueError.
Proof.
  induction r as [|ch r IH]; intros i acc Hbad; [discriminate|].
  cbn [enumerate_from for_each]. simpl in Hbad.
  destruct (Unicode.IsDecimalDigit ch) eqn:Hch.
  - destruct (luhn_body_decimal acc i ch Hch) as [total' ->]. simpl. apply IH, Hbad.
  - rewrite (luhn_body_non_decimal acc i ch Hch). reflexivity.
Qed.

Lemma forallb_rev_eq {A : Type} (f : A -> bool) (l : list A) :
  forallb f (rev l) = forallb f l.
Proof.
  destruct (forallb f l) eqn:E.
  - apply forallb_rev, E.
  - destruct (forallb f (rev l)) eqn:E'; [|reflexivity].
    apply forallb_rev in E'. rewrite rev_involutive in E'. congruence.
Qed.

Lemma luhn_check_terms (number : str) :
  forallb Unicode.IsDecimalDigit number = true ->
  luhn_check number =
  Return (terms_from 0 (rev (map digit_value number)) mod 10 =? 0)%Z.
Proof.
  intros H. unfold luhn_check, enumerate.
  change 0%Z with (Z.of_nat 0) at 1.
  rewrite (luhn_loop_terms (rev number) 0 0%Z (forallb_rev _ _ H)). unfold bind.
  rewrite map_rev. reflexivity.
Qed.

Lemma luhn_check_non_decimal (number : str) :
  forallb Unicode.IsDecimalDigit number = false -> luhn_check number = Raise ValueError.
Proof.
  intros H. unfold luhn_check, enumerate.
  rewrite luhn_loop_raises; [reflexivity|]. rewrite forallb_rev_eq. exact H.
Qed.

Lemma terms_from_app (a b : list Z) :
  forall k : nat,
    terms_from k (a ++ b) = (terms_from k a + terms_from (k + List.length a) b)%Z.
Proof.
  induction a as [|d a IH]; intros k.
  - simpl. rewrite Nat.add_0_r. reflexivity.
  - cbn [app terms_from List.length]. rewrite IH.
    replace (S k + List.length a)%nat with (k + S (List.length a))%nat by lia. lia.
Qed.

(** X1: [luhn_check] raises [ValueError] exactly on the strings that hold a
    character without decimal value, and returns a boolean on all others. *)
Theorem luhn_check_raises (number : str) :
  (luhn_check number = Raise ValueError <->
   exists ch, In ch number /\ Unicode.IsDecimalDigit ch = false) /\
  ((exists ok : bool, luhn_check number = Return ok) <->
   forall ch, In ch number -> Unicode.IsDecimalDigit ch = true).
Proof.
  destruct (forallb Unicode.IsDecimalDigit number) eqn:E.
  - rewrite (luhn_check_terms number E). rewrite forallb_forall in E. split; split.
    + discriminate.
    + intros [ch [Hin Hch]]. rewrite (E ch Hin) in Hch. discriminate.
    + intros _. exact E.
    + intros _. eexists. reflexivity.
  - rewrite (luhn_check_non_decimal number E). split; split.
    + intros _. apply forallb_false_exists, E.
    + reflexivity.
    + intros [ok H]. discriminate.
    + intros H. apply forallb_forall in H. congruence.
Qed.

(** X2: sanitization always leaves a string on which [luhn_check] returns. *)
Theorem luhn_check_sanitized_returns (raw : str) :
  exists ok : bool, luhn_check (sanitize_number raw) = Return ok.
Proof.
  eexists. apply luhn_check_terms, sanitize_number_decimal.
Qed.

(** ** What the checksum detects and what it does not *)

Lemma luhn_term_distinct (p : nat) (d d' : Z) :
  (0 <= d <= 9)%Z -> (0 <= d' <= 9)%Z -> d <> d' ->
  (-9 <= luhn_term p d - luhn_term p d' <= 9)%Z /\ luhn_term p d <> luhn_term p d'.
Proof.
  intros Hd Hd' Hne. unfold luhn_term. cbv zeta.
  destruct (Nat.odd p); [|lia].
  destruct (9 <? 2 * d)%Z eqn:E; destruct (9 <? 2 * d')%Z eqn:E';
    rewrite ?Z.ltb_lt, ?Z.ltb_ge in E, E'; lia.
Qed.

Lemma mod10_shift (a b : Z) :
  (-9 <= a - b <= 9)%Z -> a <> b -> (a mod 10 = 0)%Z -> (b mod 10 <> 0)%Z.
Proof.
  intros Hrange Hne Ha Hb.
  pose proof (Z.div_mod a 10 ltac:(discriminate)) as Ea.
  pose proof (Z.div_mod b 10 ltac:(discriminate)) as Eb.
  lia.
Qed.

Lemma forallb_decimal_cons_app (pre post : str) (c : Py_UCS4) :
  forallb Unicode.IsDecimalDigit pre = true ->
  forallb Unicode.IsDecimalDigit post = true ->
  Unicode.IsDecimalDigit c = true ->
  forallb Unicode.IsDecimalDigit (pre ++ c :: post) = true.
Proof.
  intros Hpre Hpost Hc. rewrite forallb_app. simpl. rewrite Hpre, Hc, Hpost. reflexivity.
Qed.

(** The total of [pre ++ c :: post], split at the character [c]. *)
Lemma terms_split (pre post : str) (c : Py_UCS4) :
  terms_from 0 (rev (map digit_value (pre ++ c :: post))) =
  (terms_from 0 (rev (map digit_value post))
   + luhn_term (List.length post) (digit_value c)
   + terms_from (S (List.length post)) (rev (map digit_value pre)))%Z.
Proof.
  rewrite map_app, rev_app_distr. cbn [map rev].
  rewrite !terms_from_app. cbn [terms_from].
  rewrite length_app, !length_rev, !length_map. cbn [List.length].
  replace (0 + (List.length post + 1))%nat with (S (List.length post)) by lia.
  cbn [Nat.add]. lia.
Qed.

(** X3: the checksum detects every single-digit error.  In a string of
    decimal digits that passes [luhn_check], replacing one digit by a digit
    of another value gives a string that fails it. *)
Theorem luhn_check_single_digit_error (pre post : str) (c c' : Py_UCS4) :
  forallb Unicode.IsDecimalDigit pre = true ->
  forallb Unicode.IsDecimalDigit post = true ->
  Unicode.IsDecimalDigit c = true ->
  Unicode.IsDecimalDigit c' = true ->
  digit_value c <> digit_value c' ->
  luhn_check (pre ++ c :: post) = Return true ->
  luhn_check (pre ++ c' :: post) = Return false.
Proof.
  intros Hpre Hpost Hc Hc' Hne.
  rewrite (luhn_check_terms _ (forallb_decimal_cons_app pre post c Hpre Hpost Hc)).
  rewrite (luhn_check_terms _ (forallb_decimal_cons_app pre post c' Hpre Hpost Hc')).
  rewrite !terms_split.
  set (A := terms_from 0 (rev (map digit_value post))).
  set (B := terms_from (S (List.length post)) (rev (map digit_value pre))).
  intros H. injection H as H. apply Z.eqb_eq in H.
  f_equal. apply Z.eqb_neq.
  destruct (luhn_term_distinct (List.length post) (digit_value c) (digit_value c')
              (decimal_digit_value_range c) (decimal_digit_value_range c') Hne)
    as [Hrange Hdiff].
  apply (mod10_shift (A + luhn_term (List.length post) (digit_value c) + B)%Z);
    [lia|lia|exact H].
Qed.

Lemma luhn_check_single_digit_error_witness :
  luhn_check (py "4532015112" ++ ord "9"%char :: py "30366") = Return false.
Proof.
  apply (luhn_check_single_digit_error (py "4532015112") (py "30366")
           (ord "8"%char) (ord "9"%char));
    try (vm_compute; reflexivity).
  vm_compute. discriminate.
Defined.

(** X4: every string of decimal digits has exactly one check digit: there is
    one and only one character among "0" .. "9" that, appended to it, gives
    a string that passes [luhn_check]. *)
Theorem luhn_check_digit_unique (payload : str) :
  forallb Unicode.IsDecimalDigit payload = true ->
  exists! d : Py_UCS4,
    ascii_digit d = true /\ luhn_check (payload ++ [d]) = Return true.
Proof.
  intros Hpay.
  set (rest := terms_from 1 (rev (map digit_value payload))).
  assert (Hcheck : forall d, ascii_digit d = true ->
            luhn_check (payload ++ [d]) =
            Return ((Z.of_N d - 48 + rest) mod 10 =? 0)%Z).
  { intros d Hd.
    rewrite (luhn_check_terms _ (forallb_decimal_cons_app payload [] d Hpay
                                   eq_refl (ascii_digit_decimal d Hd))).
    rewrite terms_split. cbn [map rev terms_from List.length].
    unfold luhn_term. rewrite (ascii_digit_value d Hd).
    change (Nat.odd 0) with false. cbv iota. rewrite Z.add_0_l. reflexivity. }
  pose proof (Z.mod_pos_bound (- rest) 10 ltac:(lia)) as Hm.
  pose proof (Z.div_mod (- rest) 10 ltac:(discriminate)) as Em.
  exists (Z.to_N (48 + (- rest) mod 10)). split; [split|].
  - apply ascii_digit_bounds. lia.
  - rewrite Hcheck by (apply ascii_digit_bounds; lia).
    f_equal. apply Z.eqb_eq.
    replace (Z.of_N (Z.to_N (48 + - rest mod 10)) - 48 + rest)%Z
      with ((-1) * (- rest / 10) * 10)%Z by lia.
    apply Z.mod_mul. discriminate.
  - intros d' [Hd' Hluhn]. rewrite (Hcheck d' Hd') in Hluhn.
    injection Hluhn as Hluhn. apply Z.eqb_eq in Hluhn.
    apply ascii_digit_bounds in Hd'.
    pose proof (Z.div_mod (Z.of_N d' - 48 + rest) 10 ltac:(discriminate)) as Ed.
    lia.
Qed.

Lemma luhn_check_digit_unique_witness :
  exists! d : Py_UCS4,
    ascii_digit d = true /\ luhn_check (py "453201511283036" ++ [d]) = Return true.
Proof.
  apply (luhn_check_digit_unique (py "453201511283036")).
  vm_compute. reflexivity.
Defined.

Lemma luhn_body_zero (total i : Z) :
  luhn_body total (i, ord "0"%char) = Return (total + 0)%Z.
Proof.
  unfold luhn_body. change (int (ord "0"%char)) with (Return 0%Z). unfold bind.
  destruct (i mod 2 =? 1)%Z; reflexivity.
Qed.

Lemma luhn_body_nine (total i : Z) :
  luhn_body total (i, ord "9"%char) = Return (total + 9)%Z.
Proof.
  unfold luhn_body. change (int (ord "9"%char)) with (Return 9%Z). unfold bind.
  destruct (i mod 2 =? 1)%Z; reflexivity.
Qed.

Lemma luhn_check_cons_zero (number : str) :
  luhn_check (ord "0"%char :: number) = luhn_check number.
Proof.
  unfold luhn_check, enumerate. cbn [rev].
  rewrite enumerate_from_app, for_each_app.
  destruct (for_each luhn_body (enumerate_from 0 (rev number)) 0%Z) as [total|e];
    [|reflexivity].
  cbn [bind enumerate_from for_each]. rewrite luhn_body_zero. cbn [bind].
  rewrite Z.add_0_r. reflexivity.
Qed.

(** X5: a leading "0" never changes the outcome of [luhn_check], whatever
    the string it is put in front of (the result or the exception raised is
    the same): positions are counted from the right. *)
Theorem luhn_check_leading_zero (number : str) :
  luhn_check (py "0" ++ number) = luhn_check number.
Proof. exact (luhn_check_cons_zero number). Qed.

(** X6: a string made of any number of "0" passes [luhn_check]. *)
Theorem luhn_check_zeros (n : nat) :
  luhn_check (repeat (ord "0"%char) n) = Return true.
Proof.
  induction n as [|n IH]; [reflexivity|].
  cbn [repeat]. rewrite luhn_check_cons_zero. exact IH.
Qed.

(** X7: the checksum does not see the transposition of an adjacent "09" and
    "90": the two strings get the same outcome from [luhn_check], whatever
    stands before and after. *)
Theorem luhn_check_swap_09_90 (pre post : str) :
  luhn_check (pre ++ py "09" ++ post) = luhn_check (pre ++ py "90" ++ post).
Proof.
  unfold luhn_check, enumerate.
  change (py "09") with [ord "0"%char; ord "9"%char].
  change (py "90") with [ord "9"%char; ord "0"%char].
  rewrite !rev_app_distr. cbn [rev app].
  rewrite <- !app_assoc. cbn [app].
  rewrite !enumerate_from_app, !for_each_app.
  destruct (for_each luhn_body (enumerate_from 0 (rev post)) 0%Z) as [total|e];
    [|reflexivity].
  cbn [bind enumerate_from for_each].
  rewrite !luhn_body_zero, !luhn_body_nine. cbn [bind].
  rewrite !luhn_body_zero, !luhn_body_nine. cbn [bind].
  replace (total + 9 + 0)%Z with (total + 0 + 9)%Z by lia. reflexivity.
Qed.

(** ** detect_scheme *)

Lemma startswith_firstn (p s : str) (n : nat) :
  (List.length p <= n)%nat -> startswith (firstn n s) p = startswith s p.
Proof.
  revert s n. induction p as [|x p IH]; intros s n H.
  - destruct s, n; reflexivity.
  - destruct n as [|n]; [simpl in H; lia|].
    destruct s as [|ch s]; [reflexivity|].
    cbn [firstn startswith]. rewrite IH by (simpl in H; lia). reflexivity.
Qed.

(** X8: the scheme depends on the first two characters only. *)
Theorem detect_scheme_first_two (number : str) :
  detect_scheme number = detect_scheme (firstn 2 number).
Proof.
  unfold detect_scheme, startswith_any. cbn [existsb].
  rewrite !(startswith_firstn _ number 2) by (vm_compute; lia).
  reflexivity.
Qed.

Lemma prefixes_disjoint (number : str) :
  (has_prefix (py "4") number -> ~ mastercard_prefix number /\ ~ amex_prefix number /\
                                 ~ has_prefix (py "6") number) /\
  (mastercard_prefix number -> ~ amex_prefix number /\ ~ has_prefix (py "6") number) /\
  (amex_prefix number -> ~ has_prefix (py "6") number).
Proof.
  unfold mastercard_prefix, amex_prefix, has_prefix.
  split; [|split]; intros H; [split; [|split]|split|]; intros H';
    repeat match goal with
           | H : _ \/ _ |- _ => destruct H
           | H : exists _, _ |- _ => destruct H
           end; subst; discriminate.
Qed.

(** X9: the rules of the cascade exclude one another, so each scheme is
    returned exactly for its own prefixes, whatever their order: visa for
    "4", mastercard for "51" .. "55", amex for "34" and "37", discover for
    "6", unknown for everything else. *)
Theorem detect_scheme_iff (number : str) :
  (detect_scheme number = value VISA <-> has_prefix (py "4") number) /\
  (detect_scheme number = value MASTERCARD <-> mastercard_prefix number) /\
  (detect_scheme number = value AMEX <-> amex_prefix number) /\
  (detect_scheme number = value DISCOVER <-> has_prefix (py "6") number) /\
  (detect_scheme number = value UNKNOWN <->
   ~ has_prefix (py "4") number /\ ~ mastercard_prefix number /\
   ~ amex_prefix number /\ ~ has_prefix (py "6") number).
Proof.
  destruct (prefixes_disjoint number) as [D4 [D5 D3]].
  destruct (detect_scheme_cases number)
    as [[P4 H]|[N4 [[P5 H]|[N5 [[P3 H]|[N3 [[P6 H]|[N6 H]]]]]]]];
    rewrite H;
    repeat split; intros;
    try match goal with
        | E : value _ = value _ |- _ => apply value_injective in E; discriminate E
        end;
    try reflexivity; try assumption; try tauto.
Qed.

(** ** sanitize_number and mask_number_for_logging *)

(** X10: [sanitize_number] works piece by piece (the sanitized form of a
    concatenation is the concatenation of the sanitized forms) and never
    returns more characters than it was given. *)
Theorem sanitize_number_app (a b : str) :
  sanitize_number (a ++ b) = sanitize_number a ++ sanitize_number b /\
  (List.length (sanitize_number a) <= List.length a)%nat.
Proof.
  rewrite !sanitize_number_filter. split; [apply filter_app|apply filter_length_le].
Qed.

Lemma sanitize_number_no_digit (sep : str) :
  forallb not_digit_class sep = true -> sanitize_number sep = [].
Proof.
  rewrite sanitize_number_filter. unfold not_digit_class.
  induction sep as [|ch sep IH]; simpl; [reflexivity|].
  intros H. apply andb_true_iff in H. destruct H as [Hch Hsep].
  apply negb_true_iff in Hch. rewrite Hch. apply IH, Hsep.
Qed.

(** X11: separators do not matter.  A run of characters none of which is a
    decimal digit (spaces, dashes, letters, ...) can be put anywhere in the
    input without changing the sanitized number. *)
Theorem sanitize_number_separator (a sep b : str) :
  forallb not_digit_class sep = true ->
  sanitize_number (a ++ sep ++ b) = sanitize_number (a ++ b).
Proof.
  intros H. rewrite !sanitize_number_filter, !filter_app.
  rewrite <- (sanitize_number_filter sep), (sanitize_number_no_digit sep H).
  reflexivity.
Qed.

Lemma sanitize_number_separator_witness :
  sanitize_number (py "4532" ++ py " - " ++ py "0151") = sanitize_number (py "4532" ++ py "0151").
Proof.
  apply (sanitize_number_separator (py "4532") (py " - ") (py "0151")).
  vm_compute. reflexivity.
Defined.

Lemma mask_long (number : str) :
  (4 <= List.length number)%nat ->
  mask_number_for_logging number =
  py "****" ++ skipn (List.length number - 4) number.
Proof.
  intros H. unfold mask_number_for_logging, len.
  replace (Z.of_nat (List.length number) <? 4)%Z with false
    by (symmetry; apply Z.ltb_ge; lia).
  rewrite (slice_last4 number H). reflexivity.
Qed.

(** X12: the mask shows nothing of what precedes the last four characters:
    whatever is put in front of a string of at least four characters, the
    mask stays the same. *)
Theorem mask_number_for_logging_hides_front (front s : str) :
  (4 <= List.length s)%nat ->
  mask_number_for_logging (front ++ s) = mask_number_for_logging s.
Proof.
  intros H.
  rewrite (mask_long s H), (mask_long (front ++ s)) by (rewrite length_app; lia).
  f_equal. rewrite length_app, skipn_app.
  rewrite (skipn_all2 front) by lia. cbn [app]. f_equal. lia.
Qed.

Lemma mask_number_for_logging_hides_front_witness :
  mask_number_for_logging (py "453201511283" ++ py "0366") =
  mask_number_for_logging (py "0366").
Proof.
  apply (mask_number_for_logging_hides_front (py "453201511283") (py "0366")).
  vm_compute. lia.
Defined.

(** ** validate_number *)

Lemma validate_digits_sanitized (raw : str) :
  sanitize_number raw <> [] -> validate_digits (sanitize_number raw) = Return tt.
Proof.
  intros Hne.
  destruct (validate_digits_cases (sanitize_number raw)) as [[_ Hv]|[Hd _]]; [exact Hv|].
  assert (Ht : isdigit (sanitize_number raw) = true).
  { apply isdigit_true. split; [exact Hne|].
    pose proof (sanitize_number_decimal raw) as Hall.
    rewrite forallb_forall in *. intros ch Hin. apply decimal_is_digit, Hall, Hin. }
  congruence.
Qed.

Lemma validate_number_cases (raw : str) :
  (12 <= List.length (sanitize_number raw) <= 19)%nat /\
  validate_number raw = Return (sanitize_number raw) \/
  (List.length (sanitize_number raw) < 12 \/ 19 < List.length (sanitize_number raw))%nat /\
  validate_number raw = Raise LengthError.
Proof.
  destruct (validate_length_cases (sanitize_number raw)) as [[Hl Hv]|[Hl Hv]].
  - left. split; [exact Hl|]. apply validate_number_checked; [exact Hv|].
    apply validate_digits_sanitized. intros E. rewrite E in Hl. simpl in Hl. lia.
  - right. split; [exact Hl|]. unfold validate_number. cbv zeta. rewrite Hv. reflexivity.
Qed.

(** X13: [validate_number] returns the sanitized value exactly when the
    input holds between 12 and 19 decimal digits, and raises the length
    error otherwise; the error of the digit check is never raised, whatever
    the input. *)
Theorem validate_number_outcome (raw : str) :
  (validate_number raw = Return (sanitize_number raw) <->
   (12 <= List.length (sanitize_number raw) <= 19)%nat) /\
  (validate_number raw = Raise LengthError <->
   (List.length (sanitize_number raw) < 12 \/ 19 < List.length (sanitize_number raw))%nat) /\
  validate_number raw <> Raise FormatError.
Proof.
  destruct (validate_number_cases raw) as [[Hl Hv]|[Hl Hv]]; rewrite Hv.
  - split; [tauto|]. split; [|discriminate].
    split; [discriminate|lia].
  - split; [|split].
    + split; [discriminate|lia].
    + tauto.
    + intros H. vm_compute in H. discriminate H.
Qed.

(** ** The field in front of validate_number *)

Lemma whitespace_In (ch : Py_UCS4) :
  Unicode.IsWhitespace ch = true <-> In ch Unicode.whitespace.
Proof.
  unfold Unicode.IsWhitespace. rewrite existsb_exists. split.
  - intros [x [Hin Heq]]. apply N.eqb_eq in Heq. subst. exact Hin.
  - intros Hin. exists ch. split; [exact Hin|apply N.eqb_refl].
Qed.

Lemma whitespace_not_decimal (ch : Py_UCS4) :
  Unicode.IsWhitespace ch = true -> Unicode.IsDecimalDigit ch = false.
Proof.
  intros H. apply whitespace_In in H. revert ch H. apply Forall_forall.
  unfold Unicode.whitespace. repeat constructor.
Qed.

Lemma whitespace_plain (ch : Py_UCS4) :
  Unicode.IsWhitespace ch = true -> ch <> 0 /\ is_surrogate ch = false.
Proof.
  intros H. apply whitespace_In in H. revert ch H. apply Forall_forall.
  unfold Unicode.whitespace. repeat constructor; discriminate.
Qed.

Lemma lstrip_incl (s : str) (ch : Py_UCS4) : In ch (lstrip s) -> In ch s.
Proof.
  induction s as [|x s IH]; simpl; [tauto|].
  destruct (Unicode.IsWhitespace x); [auto|]. simpl. tauto.
Qed.

Lemma lstrip_keeps (s : str) (ch : Py_UCS4) :
  In ch s -> Unicode.IsWhitespace ch = false -> In ch (lstrip s).
Proof.
  intros Hin Hch. induction s as [|x s IH]; [contradiction|]. simpl.
  destruct (Unicode.IsWhitespace x) eqn:E; [|exact Hin].
  destruct Hin as [->|Hin]; [congruence|apply IH, Hin].
Qed.

Lemma lstrip_head (s : str) (ch : Py_UCS4) (rest : str) :
  lstrip s = ch :: rest -> Unicode.IsWhitespace ch = false.
Proof.
  induction s as [|x s IH]; simpl; [discriminate|].
  destruct (Unicode.IsWhitespace x) eqn:E; [exact IH|].
  intros H. injection H as -> _. exact E.
Qed.

Lemma strip_incl (s : str) (ch : Py_UCS4) : In ch (strip s) -> In ch s.
Proof.
  unfold strip. intros H.
  apply in_rev, lstrip_incl, in_rev in H. apply lstrip_incl, H.
Qed.

Lemma strip_keeps (s : str) (ch : Py_UCS4) :
  In ch s -> Unicode.IsWhitespace ch = false -> In ch (strip s).
Proof.
  unfold strip. intros Hin Hch.
  apply in_rev. rewrite rev_involutive.
  apply lstrip_keeps; [|exact Hch]. apply in_rev. rewrite rev_involutive.
  apply lstrip_keeps; assumption.
Qed.

Lemma strip_not_blank (s : str) :
  strip s <> [] <-> exists ch, In ch s /\ Unicode.IsWhitespace ch = false.
Proof.
  split.
  - unfold strip. intros H.
    destruct (lstrip (rev (lstrip s))) as [|ch rest] eqn:E; [contradiction|].
    exists ch. split; [|exact (lstrip_head _ _ _ E)].
    apply lstrip_incl, in_rev, lstrip_incl. rewrite E. left. reflexivity.
  - intros [ch [Hin Hch]] E. pose proof (strip_keeps s ch Hin Hch) as H.
    rewrite E in H. contradiction.
Qed.

Lemma lstrip_sanitize (s : str) : sanitize_number (lstrip s) = sanitize_number s.
Proof.
  rewrite !sanitize_number_filter.
  induction s as [|x s IH]; simpl; [reflexivity|].
  destruct (Unicode.IsWhitespace x) eqn:E; [|reflexivity].
  rewrite (whitespace_not_decimal x E). exact IH.
Qed.

Lemma sanitize_number_rev (s : str) : sanitize_number (rev s) = rev (sanitize_number s).
Proof. rewrite !sanitize_number_filter. apply filter_rev. Qed.

(** Trimming removes no digit. *)
Lemma strip_sanitize (s : str) : sanitize_number (strip s) = sanitize_number s.
Proof.
  unfold strip.
  rewrite sanitize_number_rev, lstrip_sanitize, sanitize_number_rev, lstrip_sanitize.
  apply rev_involutive.
Qed.

Lemma null_validator_passes (value : str) :
  ProhibitNullCharactersValidator value = [] <-> ~ In 0 value.
Proof.
  unfold ProhibitNullCharactersValidator.
  destruct (existsb (N.eqb 0) value) eqn:E.
  - split; [discriminate|]. intros H. exfalso. apply H.
    apply existsb_exists in E. destruct E as [x [Hin Hx]].
    apply N.eqb_eq in Hx. subst. exact Hin.
  - split; [|reflexivity]. intros _ Hin.
    assert (existsb (N.eqb 0) value = true); [|congruence].
    apply existsb_exists. exists 0. split; [exact Hin|reflexivity].
Qed.

Lemma surrogate_validator_passes (value : str) :
  ProhibitSurrogateCharactersValidator value = [] <->
  forall ch, In ch value -> is_surrogate ch = false.
Proof.
  unfold ProhibitSurrogateCharactersValidator.
  destruct (filter is_surrogate value) as [|x rest] eqn:E.
  - split; [|reflexivity]. intros _ ch Hin.
    destruct (is_surrogate ch) eqn:Hs; [|reflexivity].
    assert (Hf : In ch (filter is_surrogate value)) by (apply filter_In; auto).
    rewrite E in Hf. contradiction.
  - split; [discriminate|]. intros H.
    assert (Hf : In x (filter is_surrogate value)) by (rewrite E; left; reflexivity).
    apply filter_In in Hf. destruct Hf as [Hin Hs]. rewrite (H x Hin) in Hs. discriminate.
Qed.

Lemma run_validators_cases (value : str) :
  (~ In 0 value /\ (forall ch, In ch value -> is_surrogate ch = false)) /\
  run_validators value = Accepted value \/
  ~ (~ In 0 value /\ (forall ch, In ch value -> is_surrogate ch = false)) /\
  exists message rest, run_validators value = Rejected (message :: rest).
Proof.
  unfold run_validators.
  destruct (ProhibitNullCharactersValidator value) as [|m1 r1] eqn:E1.
  - destruct (ProhibitSurrogateCharactersValidator value) as [|m2 r2] eqn:E2; simpl.
    + left. split; [|reflexivity]. split.
      * apply null_validator_passes, E1.
      * apply surrogate_validator_passes, E2.
    + right. split; [|do 2 eexists; reflexivity].
      intros [_ H]. apply surrogate_validator_passes in H. congruence.
  - right. split; [|do 2 eexists; reflexivity].
    intros [H _]. apply null_validator_passes in H. congruence.
Qed.

(** What the field does with a submitted string. *)
Lemma CharField_string (raw : str) :
  field_accepts raw /\
  CharField_run_validation (Some (PyStr raw)) = Accepted (strip raw) \/
  ~ field_accepts raw /\
  exists message rest,
    CharField_run_validation (Some (PyStr raw)) = Rejected (message :: rest).
Proof.
  unfold CharField_run_validation, is_blank, field_accepts.
  destruct (strip raw) as [|x rest] eqn:E.
  - right. split; [|do 2 eexists; reflexivity].
    intros [H _]. apply strip_not_blank in H. contradiction.
  - assert (Hnb : exists ch, In ch raw /\ Unicode.IsWhitespace ch = false).
    { apply strip_not_blank. rewrite E. discriminate. }
    rewrite <- E.
    destruct (run_validators_cases (strip raw)) as [[[H0 Hs] Hv]|[Hno [m [r Hv]]]];
      rewrite Hv.
    + left. split; [|reflexivity]. split; [exact Hnb|]. split.
      * intros Hin. apply H0, strip_keeps; [exact Hin|].
        destruct (Unicode.IsWhitespace 0) eqn:W; [|reflexivity].
        apply whitespace_plain in W. destruct W as [W _]. contradiction.
      * intros ch Hin. destruct (is_surrogate ch) eqn:S; [|reflexivity].
        rewrite <- (Hs ch); [symmetry; exact S|]. apply strip_keeps; [exact Hin|].
        destruct (Unicode.IsWhitespace ch) eqn:W; [|reflexivity].
        apply whitespace_plain in W. destruct W as [_ W]. congruence.
    + right. split; [|do 2 eexists; reflexivity].
      intros [_ [H0 Hs]]. apply Hno. split.
      * intros Hin. apply H0, strip_incl, Hin.
      * intros ch Hin. apply Hs, strip_incl, Hin.
Qed.

Lemma CharField_cases (data : option Primitive) :
  (exists value, CharField_run_validation data = Accepted value) \/
  (exists message rest, CharField_run_validation data = Rejected (message :: rest)).
Proof.
  unfold CharField_run_validation.
  destruct (is_blank data); [right; do 2 eexists; reflexivity|].
  destruct data as [[| b | text | text |]|];
    try (right; do 2 eexists; reflexivity);
    (destruct (run_validators_cases (strip text)) as [[_ Hv]|[_ [m [r Hv]]]];
     rewrite Hv; [left; eexists; reflexivity|right; do 2 eexists; reflexivity]).
Qed.

(** ** ValidateView.post *)

Lemma post_field_rejected (request : Request) (message : str) (rest : list str) :
  CharField_run_validation (data_number request) = Rejected (message :: rest) ->
  post request =
  Return ({| status := HTTP_400_BAD_REQUEST; data := ErrorBody message |}, []).
Proof.
  intros H. unfold post, run_is_valid. rewrite H. reflexivity.
Qed.

Lemma post_in_range (request : Request) (value : str) :
  CharField_run_validation (data_number request) = Accepted value ->
  (12 <= List.length (sanitize_number value) <= 19)%nat ->
  exists ok : bool,
    luhn_check (sanitize_number value) = Return ok /\
    post request =
    Return ({| status := HTTP_200_OK;
               data := ResultBody ok (detect_scheme (sanitize_number value))
                         (if ok then py "OK" else py "Invalid card number") |},
            [log_record request (sanitize_number value) ok]).
Proof.
  intros Hfield Hlen.
  pose proof (luhn_check_terms _ (sanitize_number_decimal value)) as Hluhn.
  eexists. split; [exact Hluhn|].
  destruct (validate_number_cases value) as [[_ Hv]|[Hl _]]; [|lia].
  unfold post, run_is_valid. rewrite Hfield, Hv.
  cbn [bind is_valid errors negb validated_number].
  rewrite Hluhn. reflexivity.
Qed.

Lemma post_out_of_range (request : Request) (value : str) :
  CharField_run_validation (data_number request) = Accepted value ->
  (List.length (sanitize_number value) < 12 \/
   19 < List.length (sanitize_number value))%nat ->
  post request =
  Return ({| status := HTTP_400_BAD_REQUEST;
             data := ErrorBody (py "Number must be between 12 and 19 digits.") |}, []).
Proof.
  intros Hfield Hlen.
  destruct (validate_number_cases value) as [[Hl _]|[_ Hv]]; [lia|].
  unfold post, run_is_valid. rewrite Hfield, Hv. reflexivity.
Qed.

Lemma field_accepts_string (request : Request) (raw : str) :
  data_number request = Some (PyStr raw) ->
  field_accepts raw ->
  CharField_run_validation (data_number request) = Accepted (strip raw).
Proof.
  intros Hdata Hacc. rewrite Hdata.
  destruct (CharField_string raw) as [[_ H]|[Hno _]]; [exact H|contradiction].
Qed.

(** A string with a decimal digit in it is not blank. *)
Lemma digits_not_blank (raw : str) :
  sanitize_number raw <> [] -> exists ch, In ch raw /\ Unicode.IsWhitespace ch = false.
Proof.
  rewrite sanitize_number_filter. intros H.
  destruct (filter Unicode.IsDecimalDigit raw) as [|ch rest] eqn:E; [contradiction|].
  assert (Hf : In ch (filter Unicode.IsDecimalDigit raw)) by (rewrite E; left; reflexivity).
  apply filter_In in Hf. destruct Hf as [Hin Hdec].
  exists ch. split; [exact Hin|].
  destruct (Unicode.IsWhitespace ch) eqn:W; [|reflexivity].
  rewrite (whitespace_not_decimal ch W) in Hdec. discriminate.
Qed.

(** C4, as the code has it: when the submitted string holds neither a NUL
    nor a surrogate character (which the field of the serializer refuses
    before [validate_number] runs) and its sanitized form passes the length
    and the digit check, [post] raises nothing and answers 200 with [valid]
    the result of [luhn_check] on the sanitized number (which itself
    returns), [scheme] the result of [detect_scheme] on it whatever the Luhn
    outcome, and [message] "OK" or "Invalid card number" after [valid]. *)
Theorem post_checked_input (request : Request) (raw : str) :
  data_number request = Some (PyStr raw) ->
  ~ In 0 raw ->
  (forall ch, In ch raw -> is_surrogate ch = false) ->
  validate_length (sanitize_number raw) = Return tt ->
  validate_digits (sanitize_number raw) = Return tt ->
  exists (ok : bool) (log : list LogRecord),
    luhn_check (sanitize_number raw) = Return ok /\
    post request =
    Return ({| status := HTTP_200_OK;
               data := ResultBody ok
                         (detect_scheme (sanitize_number raw))
                         (if ok then py "OK" else py "Invalid card number") |},
            log).
Proof.
  intros Hdata Hnul Hsur Hlen Hdig.
  assert (Hrange : (12 <= List.length (sanitize_number raw) <= 19)%nat).
  { destruct (validate_length_cases (sanitize_number raw)) as [[Hl _]|[_ Hv]];
      [exact Hl|congruence]. }
  assert (Hacc : field_accepts raw).
  { split; [|split; assumption]. apply digits_not_blank.
    intros E. rewrite E in Hrange. simpl in Hrange. lia. }
  pose proof (field_accepts_string request raw Hdata Hacc) as Hfield.
  rewrite <- (strip_sanitize raw) in Hrange.
  destruct (post_in_range request (strip raw) Hfield Hrange) as [ok [Hluhn Hpost]].
  rewrite (strip_sanitize raw) in Hluhn, Hpost.
  exists ok. eexists. split; [exact Hluhn|exact Hpost].
Qed.

Lemma post_checked_input_witness :
  exists (ok : bool) (log : list LogRecord),
    luhn_check (sanitize_number (py " 4532 0151 1283 0367")) = Return ok /\
    post {| data_number := Some (PyStr (py " 4532 0151 1283 0367"));
            request_id := None |} =
    Return ({| status := HTTP_200_OK;
               data := ResultBody ok
                         (detect_scheme (sanitize_number (py " 4532 0151 1283 0367")))
                         (if ok then py "OK" else py "Invalid card number") |},
            log).
Proof.
  apply (post_checked_input
           {| data_number := Some (PyStr (py " 4532 0151 1283 0367"));
              request_id := None |}
           (py " 4532 0151 1283 0367")).
  - reflexivity.
  - vm_compute. intuition discriminate.
  - intros ch Hin. vm_compute in Hin.
    repeat (destruct Hin as [<-|Hin]; [reflexivity|]). contradiction.
  - vm_compute. reflexivity.
  - vm_compute. reflexivity.
Defined.

(** C4 as stated fails: the sixteen digits of a valid number followed by a
    NUL character have a sanitized form that passes both checks, yet the
    request is answered 400, the field having refused the NUL. *)
Lemma post_refuses_nul_character :
  validate_length (sanitize_number (py "4532015112830366" ++ [0])) = Return tt /\
  validate_digits (sanitize_number (py "4532015112830366" ++ [0])) = Return tt /\
  post {| data_number := Some (PyStr (py "4532015112830366" ++ [0]));
          request_id := None |} =
  Return ({| status := HTTP_400_BAD_REQUEST;
             data := ErrorBody (py "Null characters are not allowed.") |}, []).
Proof.
  split; [|split]; vm_compute; reflexivity.
Qed.

(** X14: a submitted string that the field lets through (not blank, no NUL,
    no surrogate) and whose sanitized form has fewer than 12 or more than 19
    digits is answered 400 with the length message as error, and nothing is
    logged. *)
Theorem post_rejects_length (request : Request) (raw : str) :
  data_number request = Some (PyStr raw) ->
  field_accepts raw ->
  (List.length (sanitize_number raw) < 12 \/ 19 < List.length (sanitize_number raw))%nat ->
  post request =
  Return ({| status := HTTP_400_BAD_REQUEST;
             data := ErrorBody (py "Number must be between 12 and 19 digits.") |}, []).
Proof.
  intros Hdata Hacc Hlen.
  apply (post_out_of_range request (strip raw)
           (field_accepts_string request raw Hdata Hacc)).
  rewrite strip_sanitize. exact Hlen.
Qed.

Lemma post_rejects_length_witness :
  post {| data_number := Some (PyStr (py "1234-5")); request_id := Some (py "r1") |} =
  Return ({| status := HTTP_400_BAD_REQUEST;
             data := ErrorBody (py "Number must be between 12 and 19 digits.") |}, []).
Proof.
  apply (post_rejects_length
           {| data_number := Some (PyStr (py "1234-5")); request_id := Some (py "r1") |}
           (py "1234-5")).
  - reflexivity.
  - split; [|split].
    + exists (ord "1"%char). split; [left; reflexivity|reflexivity].
    + vm_compute. intuition discriminate.
    + intros ch Hin. vm_compute in Hin.
      repeat (destruct Hin as [<-|Hin]; [reflexivity|]). contradiction.
  - left. vm_compute. lia.
Defined.

(** The three ways a request ends. *)
Lemma post_cases (request : Request) :
  (exists message rest,
      CharField_run_validation (data_number request) = Rejected (message :: rest) /\
      post request =
      Return ({| status := HTTP_400_BAD_REQUEST; data := ErrorBody message |}, [])) \/
  (exists value,
      CharField_run_validation (data_number request) = Accepted value /\
      (List.length (sanitize_number value) < 12 \/
       19 < List.length (sanitize_number value))%nat /\
      post request =
      Return ({| status := HTTP_400_BAD_REQUEST;
                 data := ErrorBody (py "Number must be between 12 and 19 digits.") |},
              [])) \/
  (exists value ok,
      CharField_run_validation (data_number request) = Accepted value /\
      (12 <= List.length (sanitize_number value) <= 19)%nat /\
      luhn_check (sanitize_number value) = Return ok /\
      post request =
      Return ({| status := HTTP_200_OK;
                 data := ResultBody ok (detect_scheme (sanitize_number value))
                           (if ok then py "OK" else py "Invalid card number") |},
              [log_record request (sanitize_number value) ok])).
Proof.
  destruct (CharField_cases (data_number request)) as [[value Hf]|[m [r Hf]]].
  - destruct (validate_number_cases value) as [[Hl _]|[Hl _]].
    + right. right. destruct (post_in_range request value Hf Hl) as [ok [Hluhn Hpost]].
      exists value, ok. auto.
    + right. left. exists value. split; [exact Hf|]. split; [exact Hl|].
      apply (post_out_of_range request value Hf Hl).
  - left. exists m, r. split; [exact Hf|]. apply (post_field_rejected request m r Hf).
Qed.

(** X15: on a request whose body is a JSON object [post] never raises.  The
    answer is either 200 with a result body and one log record, or 400 with
    an error body and no log record; it is 400 exactly when the field
    refuses the value under [number] or the value it hands on has fewer than
    12 or more than 19 decimal digits.  For a submitted string the answer is
    200 exactly when the string is not blank, holds neither a NUL nor a
    surrogate, and holds between 12 and 19 decimal digits. *)
Theorem post_never_raises (request : Request) :
  exists (response : Response) (log : list LogRecord),
    post request = Return (response, log) /\
    ((status response = HTTP_200_OK /\
      (exists ok scheme message, data response = ResultBody ok scheme message) /\
      List.length log = 1%nat /\
      exists value,
        CharField_run_validation (data_number request) = Accepted value /\
        (12 <= List.length (sanitize_number value) <= 19)%nat)
     \/
     (status response = HTTP_400_BAD_REQUEST /\
      (exists error, data response = ErrorBody error) /\
      log = [] /\
      ((exists messages,
           CharField_run_validation (data_number request) = Rejected messages) \/
       exists value,
         CharField_run_validation (data_number request) = Accepted value /\
         (List.length (sanitize_number value) < 12 \/
          19 < List.length (sanitize_number value))%nat))) /\
    (forall raw : str,
        data_number request = Some (PyStr raw) ->
        (status response = HTTP_200_OK <->
         field_accepts raw /\
         (12 <= List.length (sanitize_number raw) <= 19)%nat)).
Proof.
  assert (Hstr : forall raw value,
             data_number request = Some (PyStr raw) ->
             CharField_run_validation (data_number request) = Accepted value ->
             field_accepts raw /\ sanitize_number value = sanitize_number raw).
  { intros raw value Hdata Hf. rewrite Hdata in Hf.
    destruct (CharField_string raw) as [[Hacc H]|[_ [m [r H]]]]; [|congruence].
    split; [exact Hacc|]. rewrite H in Hf. injection Hf as <-. apply strip_sanitize. }
  destruct (post_cases request)
    as [[m [r [Hf Hpost]]]|[[value [Hf [Hl Hpost]]]|[value [ok [Hf [Hl [_ Hpost]]]]]]];
    do 2 eexists; (split; [exact Hpost|]); cbn [status data]; split.
  - right. split; [reflexivity|]. split; [eexists; reflexivity|].
    split; [reflexivity|]. left. eexists. exact Hf.
  - intros raw Hdata. split; [discriminate|]. intros [Hacc _].
    rewrite (field_accepts_string request raw Hdata Hacc) in Hf. discriminate.
  - right. split; [reflexivity|]. split; [eexists; reflexivity|].
    split; [reflexivity|]. right. exists value. auto.
  - intros raw Hdata. split; [discriminate|]. intros [_ Hrange].
    destruct (Hstr raw value Hdata Hf) as [_ E]. rewrite E in Hl. lia.
  - left. split; [reflexivity|]. split; [do 3 eexists; reflexivity|].
    split; [reflexivity|]. exists value. auto.
  - intros raw Hdata. split; [|reflexivity]. intros _.
    destruct (Hstr raw value Hdata Hf) as [Hacc E]. rewrite E in Hl. auto.
Qed.

(** X16: whenever [post] answers 200 it has logged exactly one record.  The
    record holds the scheme and the validity that the response reports, the
    request identifier (or "-" when the request carries none), and for the
    validated number, which has 12 to 19 decimal digits, only "****"
    followed by its last four digits: never the number itself.  For a
    submitted string the validated number is its sanitized form. *)
Theorem post_logs_masked (request : Request) (response : Response)
    (log : list LogRecord) :
  post request = Return (response, log) ->
  status response = HTTP_200_OK ->
  exists (ok : bool) (record : LogRecord) (number front last4 : str),
    log = [record] /\
    data response = ResultBody ok (log_scheme record)
                      (if ok then py "OK" else py "Invalid card number") /\
    log_valid record = ok /\
    log_scheme record = detect_scheme number /\
    luhn_check number = Return ok /\
    log_request_id record = match request_id request with
                            | Some id => id
                            | None => py "-"
                            end /\
    (12 <= List.length number <= 19)%nat /\
    forallb Unicode.IsDecimalDigit number = true /\
    number = front ++ last4 /\
    List.length last4 = 4%nat /\
    log_masked_number record = py "****" ++ last4 /\
    log_masked_number record <> number /\
    (forall raw : str,
        data_number request = Some (PyStr raw) -> number = sanitize_number raw).
Proof.
  intros Hpost Hstatus.
  destruct (post_cases request)
    as [[m [r [Hf H]]]|[[value [Hf [Hl H]]]|[value [ok [Hf [Hl [Hluhn H]]]]]]];
    rewrite H in Hpost; injection Hpost as <- <-;
    try (cbn [status] in Hstatus; discriminate Hstatus).
  set (number := sanitize_number value) in *.
  assert (H4 : (4 <= List.length number)%nat) by lia.
  assert (Hlast : List.length (skipn (List.length number - 4) number) = 4%nat).
  { rewrite length_skipn. lia. }
  exists ok, (log_record request number ok), number,
         (firstn (List.length number - 4) number),
         (skipn (List.length number - 4) number).
  cbn [data log_record log_scheme log_valid log_request_id log_masked_number].
  repeat (split; [reflexivity|]).
  split; [exact Hluhn|]. split; [reflexivity|]. split; [exact Hl|].
  split; [apply sanitize_number_decimal|].
  split; [symmetry; apply firstn_skipn|]. split; [exact Hlast|].
  split; [apply mask_long, H4|]. split.
  - rewrite (mask_long _ H4). intros E.
    apply (f_equal (@List.length Py_UCS4)) in E.
    rewrite length_app, Hlast in E. change (List.length (py "****")) with 4%nat in E. lia.
  - intros raw Hdata. rewrite Hdata in Hf.
    destruct (CharField_string raw) as [[_ Hs]|[_ [m [r Hs]]]]; [|congruence].
    rewrite Hs in Hf. injection Hf as <-. apply strip_sanitize.
Qed.

Lemma post_logs_masked_witness :
  exists (ok : bool) (record : LogRecord) (number front last4 : str),
    [log_record {| data_number := Some (PyStr (py "4532 0151 1283 0366"));
                   request_id := None |} (py "4532015112830366") true] = [record] /\
    ResultBody true (value VISA) (py "OK") =
    ResultBody ok (log_scheme record)
      (if ok then py "OK" else py "Invalid card number") /\
    log_valid record = ok /\
    log_scheme record = detect_scheme number /\
    luhn_check number = Return ok /\
    log_request_id record = py "-" /\
    (12 <= List.length number <= 19)%nat /\
    forallb Unicode.IsDecimalDigit number = true /\
    number = front ++ last4 /\
    List.length last4 = 4%nat /\
    log_masked_number record = py "****" ++ last4 /\
    log_masked_number record <> number /\
    (forall raw : str,
        Some (PyStr (py "4532 0151 1283 0366")) = Some (PyStr raw) ->
        number = sanitize_number raw).
Proof.
  apply (post_logs_masked
           {| data_number := Some (PyStr (py "4532 0151 1283 0366"));
              request_id := None |}
           {| status := HTTP_200_OK;
              data := ResultBody true (value VISA) (py "OK") |}
           [log_record {| data_number := Some (PyStr (py "4532 0151 1283 0366"));
                          request_id := None |} (py "4532015112830366") true]).
  - vm_compute. reflexivity.
  - reflexivity.
Defined.

(** X17: for the strings that the field lets through the answer depends on
    the digits only.  Two requests with the same request identifier whose
    submitted strings are both accepted by the field (not blank, no NUL, no
    surrogate) and have the same sanitized form get the same response and
    the same log. *)
Theorem post_formatting_insensitive (request1 request2 : Request) (raw1 raw2 : str) :
  data_number request1 = Some (PyStr raw1) ->
  data_number request2 = Some (PyStr raw2) ->
  field_accepts raw1 ->
  field_accepts raw2 ->
  request_id request1 = request_id request2 ->
  sanitize_number raw1 = sanitize_number raw2 ->
  post request1 = post request2.
Proof.
  intros H1 H2 A1 A2 Hid Hsan.
  unfold post, run_is_valid, validate_number. cbv zeta.
  rewrite (field_accepts_string request1 raw1 H1 A1).
  rewrite (field_accepts_string request2 raw2 H2 A2).
  rewrite !strip_sanitize, Hid, Hsan. reflexivity.
Qed.

Lemma post_formatting_insensitive_witness :
  post {| data_number := Some (PyStr (py "4532-0151-1283-0366")); request_id := None |} =
  post {| data_number := Some (PyStr (py " 4532 0151 1283 0366")); request_id := None |}.
Proof.
  assert (ok : forall s : str,
             existsb (N.eqb 0) s = false ->
             forallb (fun ch => negb (is_surrogate ch)) s = true ->
             In (ord "4"%char) s ->
             field_accepts s).
  { intros s H0 Hs H4. split; [|split].
    - exists (ord "4"%char). split; [exact H4|reflexivity].
    - intros Hin. assert (existsb (N.eqb 0) s = true); [|congruence].
      apply existsb_exists. exists 0. split; [exact Hin|reflexivity].
    - intros ch Hin. rewrite forallb_forall in Hs.
      apply negb_true_iff, Hs, Hin. }
  apply (post_formatting_insensitive
           {| data_number := Some (PyStr (py "4532-0151-1283-0366")); request_id := None |}
           {| data_number := Some (PyStr (py " 4532 0151 1283 0366")); request_id := None |}
           (py "4532-0151-1283-0366") (py " 4532 0151 1283 0366")).
  - reflexivity.
  - reflexivity.
  - apply ok; [reflexivity|reflexivity|left; reflexivity].
  - apply ok; [reflexivity|reflexivity|right; left; reflexivity].
  - reflexivity.
  - reflexivity.
Defined.
